(** * Trello-to-Discord relay: the webhook pipeline of [bot.py]

    A shallow embedding of [TrelloWebhookHandler] (signature check, event
    gate, embed construction, delivery) and the properties of it that the
    specification states.

    Conventions.
    - A Python [str] is the list of its Unicode code points ([pystr]), so
      that [len], slicing and the ASCII test of [hmac.compare_digest] mean
      what they mean in Python.  [bytes] is [list byte].
    - A value decoded from JSON is a [pyval].
    - A call that may raise returns an [outcome]; the handlers, which talk
      to the chat client and the logger, run in the monad [M], which
      records what they did, step by step.
    - An [Embed] is what [discord.Embed] and [add_field] make of what the
      program hands them; the request, the bot and the channel are records
      of what the program asks of them, each answer an [outcome] where the
      call can raise.
    - SHA-1 and HMAC are written out (FIPS 180-4, RFC 2104).
      [datetime.fromisoformat], whose accepted grammar differs between
      CPython releases, and [datetime.astimezone], which reads the local
      zone of the machine, are operations of the class [PyRuntime]. *)

From Stdlib Require Import ZArith NArith List String Ascii Bool Lia.
From Stdlib.Strings Require Import Byte.
From Stdlib Require Import DecimalString PrimFloat.
From stdpp Require Import base option list gmap.
Import ListNotations.

#[local] Set Warnings "-register-all".
#[local] Open Scope Z_scope.

(* ================================================================== *)
(** ** Python strings and bytes *)

Module PyStr.

Abbreviation codepoint := N (only parsing).
Abbreviation pystr := (list N) (only parsing).
Definition bytes := list byte.

(** A literal of the source, written in ASCII. *)
Definition lit (s : string) : pystr :=
  map N_of_ascii (list_ascii_of_string s).

Arguments lit : simpl never.

Definition str_eqb (a b : pystr) : bool := bool_decide (a = b).

(** What [PyUnicode_IS_ASCII] tests. *)
Definition is_ascii (s : pystr) : bool := forallb (fun c => (c <? 128)%N) s.

(** [s.replace(old, new)] for a one-character [old]: every occurrence. *)
Definition replace_char (old : codepoint) (new : pystr) (s : pystr) : pystr :=
  flat_map (fun c => if (c =? old)%N then new else [c]) s.

(** [s[:n]] for [n >= 0]. *)
Definition slice_to (n : nat) (s : pystr) : pystr := firstn n s.

Fixpoint starts_with (p s : pystr) : bool :=
  match p, s with
  | [], _ => true
  | _ :: _, [] => false
  | a :: p', b :: s' => (a =? b)%N && starts_with p' s'
  end.

(** [p in s] for two strings: [p] occurs in [s]. *)
Fixpoint contains (p s : pystr) : bool :=
  starts_with p s ||
  match s with
  | [] => false
  | _ :: s' => contains p s'
  end.

Definition byte_of_Z (z : Z) : byte :=
  default x00 (Byte.of_N (Z.to_N (z mod 256))).

Definition Z_of_byte (b : byte) : Z := Z.of_N (Byte.to_N b).

(** UTF-8 of one code point; [None] for a surrogate (which the strict
    error handler of [str.encode] refuses) and above U+10FFFF. *)
Definition utf8_of_codepoint (c : codepoint) : option (list byte) :=
  let z := Z.of_N c in
  let cont (sh : Z) := byte_of_Z (Z.lor 0x80 (Z.land (Z.shiftr z sh) 0x3F)) in
  if z <? 0x80 then Some [byte_of_Z z]
  else if z <? 0x800 then
    Some [byte_of_Z (Z.lor 0xC0 (Z.shiftr z 6)); cont 0]
  else if z <? 0x10000 then
    if (0xD800 <=? z) && (z <=? 0xDFFF) then None
    else Some [byte_of_Z (Z.lor 0xE0 (Z.shiftr z 12)); cont 6; cont 0]
  else if z <? 0x110000 then
    Some [byte_of_Z (Z.lor 0xF0 (Z.shiftr z 18)); cont 12; cont 6; cont 0]
  else None.

(** [s.encode()]: [None] stands for [UnicodeEncodeError]. *)
Fixpoint encode (s : pystr) : option bytes :=
  match s with
  | [] => Some []
  | c :: s' =>
      match utf8_of_codepoint c, encode s' with
      | Some bs, Some rest => Some (bs ++ rest)
      | _, _ => None
      end
  end.

Definition hex_digit (z : Z) : codepoint :=
  Z.to_N (if z <? 10 then 48 + z else 87 + z).

(** Lowercase hexadecimal, two digits a byte. *)
Definition hex (bs : bytes) : pystr :=
  flat_map (fun b => [hex_digit (Z_of_byte b / 16);
                      hex_digit (Z_of_byte b mod 16)]) bs.

End PyStr.
Import PyStr.

(* ================================================================== *)
(** ** SHA-1 and HMAC-SHA1 *)

Module SHA1.

Definition wrap32 (x : Z) : Z := x mod 2 ^ 32.
Definition add32 (x y : Z) : Z := wrap32 (x + y).
Definition rotl32 (n x : Z) : Z :=
  wrap32 (Z.lor (Z.shiftl x n) (Z.shiftr x (32 - n))).
Definition not32 (x : Z) : Z := Z.lxor x 0xFFFFFFFF.

(** The [n] low bytes of [x], most significant first. *)
Fixpoint be_bytes (n : nat) (x : Z) : list Z :=
  match n with
  | O => []
  | S n' => (Z.shiftr x (8 * Z.of_nat n')) mod 256 :: be_bytes n' x
  end.

Definition be_word (bs : list Z) : Z :=
  fold_left (fun acc b => acc * 256 + b) bs 0.

(** Message, the bit 1, zeros up to 56 modulo 64, the bit length on 64 bits. *)
Definition pad (msg : list Z) : list Z :=
  let l := Z.of_nat (length msg) in
  msg ++ [0x80] ++ repeat 0 (Z.to_nat ((55 - l) mod 64)) ++ be_bytes 8 (8 * l).

Fixpoint group {A} (fuel n : nat) (l : list A) : list (list A) :=
  match fuel, l with
  | O, _ | _, [] => []
  | S fuel', _ => firstn n l :: group fuel' n (skipn n l)
  end.

Definition groups {A} (n : nat) (l : list A) : list (list A) :=
  group (length l) n l.

(** One step of the message schedule, on the words so far, latest first. *)
Definition schedule_step (rev_w : list Z) : list Z :=
  let w i := nth i rev_w 0 in
  rotl32 1 (Z.lxor (Z.lxor (Z.lxor (w 2%nat) (w 7%nat)) (w 13%nat)) (w 15%nat))
    :: rev_w.

Definition schedule (block : list Z) : list Z :=
  rev (Nat.iter 64 schedule_step (rev block)).

Definition f_t (t : Z) (b c d : Z) : Z :=
  if t <? 20 then Z.lor (Z.land b c) (Z.land (not32 b) d)
  else if t <? 40 then Z.lxor (Z.lxor b c) d
  else if t <? 60 then Z.lor (Z.lor (Z.land b c) (Z.land b d)) (Z.land c d)
  else Z.lxor (Z.lxor b c) d.

Definition k_t (t : Z) : Z :=
  if t <? 20 then 0x5A827999
  else if t <? 40 then 0x6ED9EBA1
  else if t <? 60 then 0x8F1BBCDC
  else 0xCA62C1D6.

Definition state : Type := Z * Z * Z * Z * Z.

Definition round (s : state) (tw : Z * Z) : state :=
  let '(a, b, c, d, e) := s in
  let '(t, w) := tw in
  let temp := add32 (add32 (add32 (add32 (rotl32 5 a) (f_t t b c d)) e) (k_t t)) w in
  (temp, a, rotl32 30 b, c, d).

Definition compress (h : state) (block : list Z) : state :=
  let ws := schedule block in
  let ts := map Z.of_nat (seq 0 80) in
  let '(a, b, c, d, e) := fold_left round (combine ts ws) h in
  let '(h0, h1, h2, h3, h4) := h in
  (add32 h0 a, add32 h1 b, add32 h2 c, add32 h3 d, add32 h4 e).

Definition init : state :=
  (0x67452301, 0xEFCDAB89, 0x98BADCFE, 0x10325476, 0xC3D2E1F0).

Definition digest_Z (msg : list Z) : list Z :=
  let blocks := groups 16 (map be_word (groups 4 (pad msg))) in
  let '(h0, h1, h2, h3, h4) := fold_left compress blocks init in
  flat_map (be_bytes 4) [h0; h1; h2; h3; h4].

(** [hashlib.sha1(msg).digest()] *)
Definition sha1 (msg : bytes) : bytes :=
  map byte_of_Z (digest_Z (map Z_of_byte msg)).

Definition block_size : nat := 64.

Definition xor_pad (p : Z) (key : bytes) : bytes :=
  map (fun b => byte_of_Z (Z.lxor (Z_of_byte b) p)) key.

(** [hmac.new(key, msg, hashlib.sha1).digest()] *)
Definition hmac (key msg : bytes) : bytes :=
  let k := if (block_size <? length key)%nat then sha1 key else key in
  let k := k ++ repeat x00 (block_size - length k) in
  sha1 (xor_pad 0x5C k ++ sha1 (xor_pad 0x36 k ++ msg)).

(** [hmac.new(key, msg, hashlib.sha1).hexdigest()] *)
Definition hmac_hexdigest (key msg : bytes) : pystr := hex (hmac key msg).

End SHA1.

(* ================================================================== *)
(** ** Values, exceptions *)

(** The exceptions of the pipeline; all derive from [Exception].
    [OtherError] is any other subclass of [Exception], as a collaborator
    (the JSON decoder, the chat client) may raise. *)
Inductive exn : Type :=
| AttributeError
| TypeError
| KeyError
| ValueError
| UnicodeEncodeError
| OtherError (tag : N).

Inductive outcome (A : Type) : Type :=
| Ok (a : A)
| Raise (e : exn).
Arguments Ok {A} a.
Arguments Raise {A} e.

Definition obind {A B} (m : outcome A) (k : A -> outcome B) : outcome B :=
  match m with
  | Ok a => k a
  | Raise e => Raise e
  end.

Declare Scope py_scope.
Delimit Scope py_scope with py.
Notation "'let?' x ':=' m 'in' k" := (obind m (fun x => k))
  (at level 10, x name, m at level 100, k at level 200,
   format "'[v' 'let?'  x  ':='  m  'in' '/' k ']'") : py_scope.
#[local] Open Scope py_scope.

(** A document as [json.loads] returns it. *)
Inductive pyval : Type :=
| PNone
| PBool (b : bool)
| PInt (n : Z)
| PFloat (x : PrimFloat.float)
| PStr (s : pystr)
| PList (items : list pyval)
| PDict (d : gmap (list N) pyval).

Module Py.

(** [{}] *)
Definition empty_dict : pyval := PDict ∅.

(** [v == s] for a string literal [s]. *)
Definition eq_str (v : pyval) (s : pystr) : bool :=
  match v with
  | PStr t => str_eqb t s
  | _ => false
  end.

(** [v in [s1, ..., sn]] for string literals. *)
Definition in_strs (v : pyval) (l : list pystr) : bool :=
  existsb (eq_str v) l.

(** [v.get(key, dflt)]: only a dict has the method. *)
Definition get (v : pyval) (key : pystr) (dflt : pyval) : outcome pyval :=
  match v with
  | PDict d => Ok (default dflt (d !! key))
  | _ => Raise AttributeError
  end.

(** [key in v] for a string [key]. *)
Definition contains (key : pystr) (v : pyval) : outcome bool :=
  match v with
  | PDict d => Ok (bool_decide (is_Some (d !! key)))
  | PList items => Ok (existsb (fun x => eq_str x key) items)
  | PStr s => Ok (PyStr.contains key s)
  | _ => Raise TypeError
  end.

(** [v[key]] for a string [key]. *)
Definition getitem (v : pyval) (key : pystr) : outcome pyval :=
  match v with
  | PDict d =>
      match d !! key with
      | Some x => Ok x
      | None => Raise KeyError
      end
  | _ => Raise TypeError
  end.

(** [len(v)] *)
Definition len (v : pyval) : outcome nat :=
  match v with
  | PStr s => Ok (length s)
  | PList items => Ok (length items)
  | PDict d => Ok (size d)
  | _ => Raise TypeError
  end.

(** [v[:n]].  On a dict the slice is no key: [TypeError] (unhashable)
    up to CPython 3.11, [KeyError] since. *)
Definition slice_to (n : nat) (v : pyval) : outcome pyval :=
  match v with
  | PStr s => Ok (PStr (PyStr.slice_to n s))
  | PList items => Ok (PList (firstn n items))
  | _ => Raise TypeError
  end.

(** [v + s] for a string literal [s]. *)
Definition add_str (v : pyval) (s : pystr) : outcome pyval :=
  match v with
  | PStr t => Ok (PStr (t ++ s))
  | _ => Raise TypeError
  end.

(** [v.replace(old, new)] for a one-character [old]: a method of [str]
    alone among the decoded values. *)
Definition replace (v : pyval) (old : codepoint) (new : pystr) : outcome pystr :=
  match v with
  | PStr s => Ok (replace_char old new s)
  | _ => Raise AttributeError
  end.

End Py.

(* ================================================================== *)
(** ** Formatted text and embeds *)

(** An f-string, kept as its parts: literal text and the values formatted
    into it.  [Fmt v] stands for [format(v, '')], which on a decoded value
    is [str(v)]; a value handed to [discord.Embed] as it is, which the
    library passes through [str], is the one-part text [[Fmt v]]. *)
Inductive fpart : Type :=
| Lit (s : pystr)
| Fmt (v : pyval).

Abbreviation text := (list fpart) (only parsing).

(** [str(v)] where it is a matter of the value alone. *)
Definition str_of (v : pyval) : option pystr :=
  match v with
  | PStr s => Some s
  | PNone => Some (lit "None")
  | PBool true => Some (lit "True")
  | PBool false => Some (lit "False")
  | PInt n => Some (lit (DecimalString.NilZero.string_of_int (Z.to_int n)))
  | _ => None
  end.

(** The string a text denotes, when none of its parts is a float, a list
    or a dict. *)
Fixpoint render (t : text) : option pystr :=
  match t with
  | [] => Some []
  | Lit s :: t' => option_map (app s) (render t')
  | Fmt v :: t' =>
      match str_of v, render t' with
      | Some s, Some r => Some (s ++ r)
      | _, _ => None
      end
  end.

(** The fields of a [datetime] but its zone: what a naive one holds. *)
Record wall_clock : Type := mk_wall_clock
  { year : Z; month : Z; day : Z;
    hour : Z; minute : Z; second : Z; microsecond : Z }.

Record datetime : Type := mk_datetime
  { clock : wall_clock;
    utcoffset : option Z (* seconds east of UTC; [None]: naive *) }.

Record EmbedField : Type := mk_field
  { name : pystr; value : text; inline : bool }.

Record Embed : Type := mk_embed
  { title : pystr;
    description : text;
    color : Z;
    timestamp : datetime;
    fields : list EmbedField }.

(** [embed.add_field(name=..., value=..., inline=...)] *)
Definition add_field (e : Embed) (n : pystr) (v : text) (i : bool) : Embed :=
  mk_embed (title e) (description e) (color e) (timestamp e)
           (fields e ++ [mk_field n v i]).

(** What the program needs of the interpreter and the machine it runs on.
    [fromisoformat s] is [datetime.fromisoformat(s)], [None] for its
    [ValueError]; every release refuses the empty string.
    [astimezone w] is [t.astimezone()] for the naive [t] of fields [w]: [t]
    read as a time of the local zone of the machine, made aware.  It raises
    ([ValueError] or [OverflowError]) near the ends of the range of
    [datetime], and where the local zone skips an hour the fields it
    returns are not those it was given. *)
Class PyRuntime : Type :=
  { fromisoformat : pystr -> option datetime;
    fromisoformat_empty : fromisoformat [] = None;
    astimezone : wall_clock -> outcome datetime }.

(* ================================================================== *)
(** ** The world around the handler *)

(** The module-level configuration read from the environment. *)
Record Config : Type := mk_config
  { TRELLO_WEBHOOK_SECRET : option pystr;
    DISCORD_CHANNEL_ID : Z }.

(** A channel of the chat client: [await channel.send(embed=e)] completes
    or raises. *)
Record Channel : Type := mk_channel
  { send : Embed -> outcome unit }.

(** [bot.get_channel(id)] is the channel or [None]. *)
Record Bot : Type := mk_bot
  { get_channel : Z -> option Channel }.

(** An [aiohttp] request, by the three things the handler asks of it:
    [request.headers.get(name)], [await request.read()] and
    [await request.json()].  Reading the body raises when the body is
    larger than the application allows ([HTTPRequestEntityTooLarge]) or the
    connection is lost; decoding it raises as well when it is not JSON. *)
Record Request : Type := mk_request
  { headers_get : pystr -> option pystr;
    read : outcome bytes;
    json : outcome pyval }.

(** [web.Response(status=..., text=...)] *)
Record Response : Type := mk_response
  { status : Z; resp_text : pystr }.

Inductive log_line : Type :=
| ErrorHandlingWebhook (e : exn)
| ErrorProcessingEvent (e : exn)
| ChannelNotFound (id : Z)
| ErrorSendingMessage (e : exn).

(** What a run of the handler does, step by step. *)
Inductive event : Type :=
| EvDecode                     (* request.json() is awaited *)
| EvGetChannel (id : Z)        (* bot.get_channel(id) *)
| EvFormat (action : pyval)    (* create_embed(action) *)
| EvSend (e : Embed)           (* channel.send(embed=e) is awaited *)
| EvLog (l : log_line).        (* logger.error(...) *)

(** A handler's run: the events it produced, in order, and its result or
    the exception it let through. *)
Definition M (A : Type) : Type := list event * outcome A.

Definition ret {A} (a : A) : M A := ([], Ok a).

Definition bind {A B} (m : M A) (k : A -> M B) : M B :=
  match m with
  | (tr, Ok a) => let '(tr', r) := k a in (tr ++ tr', r)
  | (tr, Raise e) => (tr, Raise e)
  end.

Definition emit (ev : event) : M unit := ([ev], Ok tt).

Definition lift {A} (o : outcome A) : M A := ([], o).

(** [try: m  except Exception as e: h e] *)
Definition try_except {A} (m : M A) (h : exn -> M A) : M A :=
  match m with
  | (tr, Ok a) => (tr, Ok a)
  | (tr, Raise e) => let '(tr', r) := h e in (tr ++ tr', r)
  end.

Notation "'let*' x ':=' m 'in' k" := (bind m (fun x => k))
  (at level 10, x name, m at level 100, k at level 200,
   format "'[v' 'let*'  x  ':='  m  'in' '/' k ']'") : py_scope.
Notation "m ';;' k" := (bind m (fun _ => k))
  (at level 100, k at level 200, right associativity) : py_scope.

Definition events {A} (m : M A) : list event := fst m.
Definition result {A} (m : M A) : outcome A := snd m.

(* ================================================================== *)
(** ** TrelloWebhookHandler *)

Section Handler.

Context {rt : PyRuntime}.
Variable cfg : Config.
Variable bot : Bot.

Definition health_check : Response :=
  mk_response 200 (lit "Bot is running!").

(** [hmac.compare_digest(a, b)] on two [str]: both must be ASCII. *)
Definition compare_digest (a b : pystr) : outcome bool :=
  if is_ascii a && is_ascii b then Ok (str_eqb a b) else Raise TypeError.

Definition verify_webhook_signature (request : Request) : outcome bool :=
  match TRELLO_WEBHOOK_SECRET cfg with
  | None | Some [] => Ok true
  | Some secret =>
      match headers_get request (lit "X-Trello-Webhook") with
      | None | Some [] => Ok false
      | Some signature =>
          let? body := read request in
          match encode secret with
          | None => Raise UnicodeEncodeError
          | Some key =>
              let expected_signature := SHA1.hmac_hexdigest key body in
              compare_digest signature expected_signature
          end
      end
  end.

(** [datetime.fromisoformat(date.replace('Z', '+00:00'))] *)
Definition parse_date (date : pyval) : outcome datetime :=
  let? s := Py.replace date 90%N (lit "+00:00") in
  match fromisoformat s with
  | Some t => Ok t
  | None => Raise ValueError
  end.

(** [action.get('data', {}).get(key, dflt)] *)
Definition data_get (action : pyval) (key : pystr) (dflt : pyval) : outcome pyval :=
  let? data := Py.get action (lit "data") Py.empty_dict in
  Py.get data key dflt.

Definition unknown : pyval := PStr (lit "Unknown").

(** The setter of [Embed.timestamp] (discord.py 2, which the program
    needs for [intents.message_content]): an aware datetime is kept as it
    is, a naive one is replaced by [value.astimezone()]. *)
Definition set_timestamp (value : datetime) : outcome datetime :=
  match utcoffset value with
  | Some _ => Ok value
  | None => astimezone (clock value)
  end.

(** [discord.Embed(title=ttl, description=desc, color=col, timestamp=ts)]:
    the constructor stores the title, the description and the colour and
    hands [ts] to the setter, which may raise; the embed has no field
    yet. *)
Definition discord_Embed (ttl : pystr) (desc : text) (col : Z) (ts : datetime)
  : outcome Embed :=
  let? stamp := set_timestamp ts in
  Ok (mk_embed ttl desc col stamp []).

(** The constructor call of the four card branches:
    [discord.Embed(title=..., description=f"**{card.get('name', 'Unknown')}**",
                   color=..., timestamp=datetime.fromisoformat(...))] *)
Definition card_embed (ttl : pystr) (card : pyval) (col : Z) (date : pyval)
  : outcome Embed :=
  let? card_name := Py.get card (lit "name") unknown in
  let? ts := parse_date date in
  discord_Embed ttl [Lit (lit "**"); Fmt card_name; Lit (lit "**")] col ts.

(** [if key in old_data: embed.add_field(name=n, value=v, inline=False)] *)
Definition add_if_old (old_data : pyval) (key : pystr) (n : pystr)
           (v : outcome text) (embed : Embed) : outcome Embed :=
  let? present := Py.contains key old_data in
  if present then
    let? t := v in Ok (add_field embed n t false)
  else Ok embed.

(** [text[:1000] + "..." if len(text) > 1000 else text] *)
Definition comment_value (text : pyval) : outcome pyval :=
  let? n := Py.len text in
  if (1000 <? n)%nat then
    let? head := Py.slice_to 1000 text in Py.add_str head (lit "...")
  else Ok text.

Definition create_embed (action : pyval) : outcome Embed :=
  let? action_type := Py.get action (lit "type") PNone in
  let? member := Py.get action (lit "memberCreator") Py.empty_dict in
  let? date := Py.get action (lit "date") (PStr []) in
  if Py.eq_str action_type (lit "createCard") then
    let? card := data_get action (lit "card") Py.empty_dict in
    let? list_info := data_get action (lit "list") Py.empty_dict in
    let? embed :=
      card_embed (0x1F195%N :: lit " New Card Created") card 0x00ff00 date in
    let? v := Py.get list_info (lit "name") unknown in
    let embed := add_field embed (lit "List") [Fmt v] true in
    let? v := Py.get member (lit "fullName") unknown in
    Ok (add_field embed (lit "Creator") [Fmt v] true)
  else if Py.eq_str action_type (lit "updateCard") then
    let? card := data_get action (lit "card") Py.empty_dict in
    let? old_data := data_get action (lit "old") Py.empty_dict in
    let? embed :=
      card_embed (0x1F4DD%N :: lit " Card Updated") card 0xffaa00 date in
    let? embed :=
      add_if_old old_data (lit "name") (lit "Name Changed")
        (let? old_name := Py.getitem old_data (lit "name") in
         let? new_name := Py.get card (lit "name") PNone in
         Ok [Lit (lit "From: "); Fmt old_name;
             Lit (10%N :: lit "To: "); Fmt new_name])
        embed in
    let? embed :=
      add_if_old old_data (lit "desc") (lit "Description Updated")
        (Ok [Lit (lit "Description was modified")]) embed in
    let? embed :=
      add_if_old old_data (lit "pos") (lit "Position Changed")
        (Ok [Lit (lit "Card was moved")]) embed in
    let? v := Py.get member (lit "fullName") unknown in
    Ok (add_field embed (lit "Updated by") [Fmt v] true)
  else if Py.eq_str action_type (lit "deleteCard") then
    let? card := data_get action (lit "card") Py.empty_dict in
    let? embed :=
      card_embed ([0x1F5D1; 0xFE0F]%N ++ lit " Card Deleted") card 0xff0000 date in
    let? v := Py.get member (lit "fullName") unknown in
    Ok (add_field embed (lit "Deleted by") [Fmt v] true)
  else if Py.eq_str action_type (lit "commentCard") then
    let? card := data_get action (lit "card") Py.empty_dict in
    let? text := data_get action (lit "text") (PStr []) in
    let? embed :=
      card_embed (0x1F4AC%N :: lit " New Comment") card 0x0099ff date in
    let? v := comment_value text in
    let embed := add_field embed (lit "Comment") [Fmt v] false in
    let? v := Py.get member (lit "fullName") unknown in
    Ok (add_field embed (lit "Comment by") [Fmt v] true)
  else
    let? ts := parse_date date in
    let? embed :=
      discord_Embed (0x1F504%N :: lit " Trello Update")
                    [Lit (lit "Action: "); Fmt action_type] 0x666666 ts in
    let? v := Py.get member (lit "fullName") unknown in
    Ok (add_field embed (lit "User") [Fmt v] true).

Definition send_discord_message (action : pyval) : M unit :=
  try_except
    (emit (EvGetChannel (DISCORD_CHANNEL_ID cfg));;
     match get_channel bot (DISCORD_CHANNEL_ID cfg) with
     | None => emit (EvLog (ChannelNotFound (DISCORD_CHANNEL_ID cfg)))
     | Some channel =>
         emit (EvFormat action);;
         let* embed := lift (create_embed action) in
         emit (EvSend embed);;
         lift (send channel embed)
     end)
    (fun e => emit (EvLog (ErrorSendingMessage e))).

Definition actionable : list pystr :=
  [lit "createCard"; lit "updateCard"; lit "deleteCard"; lit "commentCard"].

Definition process_trello_event (data : pyval) : M unit :=
  try_except
    (let* action := lift (Py.get data (lit "action") Py.empty_dict) in
     let* action_type := lift (Py.get action (lit "type") PNone) in
     if Py.in_strs action_type actionable then send_discord_message action
     else ret tt)
    (fun e => emit (EvLog (ErrorProcessingEvent e))).

Definition handle_webhook (request : Request) : M Response :=
  try_except
    (let* ok := lift (verify_webhook_signature request) in
     if negb ok then ret (mk_response 401 (lit "Unauthorized"))
     else
       emit EvDecode;;
       let* data := lift (json request) in
       process_trello_event data;;
       ret (mk_response 200 (lit "OK")))
    (fun e =>
       emit (EvLog (ErrorHandlingWebhook e));;
       ret (mk_response 500 (lit "Internal Server Error"))).

End Handler.

(* ================================================================== *)
(** ** A reference runtime *)

(** The layout [YYYY-MM-DDTHH:MM:SS[.fff[fff]][+HH:MM]] that
    [datetime.isoformat] prints and every release of CPython reads back,
    on a machine whose local zone is UTC.  It gives the theorems below,
    which hold for any [PyRuntime], a runtime to be evaluated on. *)
Module IsoFormat.

Definition digit (c : N) : option Z :=
  if ((48 <=? c) && (c <=? 57))%N then Some (Z.of_N c - 48) else None.

(** [n] decimal digits at the head of [s], and what follows them. *)
Fixpoint digits (n : nat) (acc : Z) (s : pystr) : option (Z * pystr) :=
  match n, s with
  | O, _ => Some (acc, s)
  | S _, [] => None
  | S n', c :: s' => d ← digit c; digits n' (acc * 10 + d) s'
  end.

Definition expect (c : N) (s : pystr) : option pystr :=
  match s with
  | c' :: s' => if (c =? c')%N then Some s' else None
  | [] => None
  end.

Definition is_leap (y : Z) : bool :=
  (y mod 4 =? 0) && (negb (y mod 100 =? 0) || (y mod 400 =? 0)).

Definition days_in_month (y m : Z) : Z :=
  if m =? 2 then (if is_leap y then 29 else 28)
  else if (m =? 4) || (m =? 6) || (m =? 9) || (m =? 11) then 30
  else 31.

(** [.ffffff] or [.fff], in microseconds; nothing when no point follows. *)
Definition fraction (s : pystr) : option (Z * pystr) :=
  match s with
  | 46%N :: s' =>
      match digits 6 0 s' with
      | Some r => Some r
      | None => '(ms, r) ← digits 3 0 s'; Some (ms * 1000, r)
      end
  | _ => Some (0, s)
  end.

(** [+HH:MM] or [-HH:MM] up to the end, in seconds; [None] when the
    string ends here. *)
Definition offset (s : pystr) : option (option Z) :=
  match s with
  | [] => Some None
  | c :: s' =>
      sign ← (if (c =? 43)%N then Some 1
              else if (c =? 45)%N then Some (-1) else None);
      '(hh, s1) ← digits 2 0 s';
      s2 ← expect 58 s1;
      '(mm, s3) ← digits 2 0 s2;
      match s3 with
      | [] => if (hh <? 24) && (mm <? 60)
              then Some (Some (sign * (hh * 3600 + mm * 60))) else None
      | _ => None
      end
  end.

Definition parse (s : pystr) : option datetime :=
  '(y, s) ← digits 4 0 s;  s ← expect 45 s;
  '(mo, s) ← digits 2 0 s; s ← expect 45 s;
  '(d, s) ← digits 2 0 s;  s ← expect 84 s;
  '(h, s) ← digits 2 0 s;  s ← expect 58 s;
  '(mi, s) ← digits 2 0 s; s ← expect 58 s;
  '(sec, s) ← digits 2 0 s;
  '(us, s) ← fraction s;
  tz ← offset s;
  if (1 <=? y) && (1 <=? mo) && (mo <=? 12) && (1 <=? d)
     && (d <=? days_in_month y mo) && (h <? 24) && (mi <? 60) && (sec <? 60)
  then Some (mk_datetime (mk_wall_clock y mo d h mi sec us) tz) else None.

(** [astimezone()] of a naive datetime on a machine whose local zone is
    UTC, as CPython 3.11 computes it: the same fields at offset 0, and
    [ValueError] on the first day of year 1, since the zone is looked up a
    day before the time as well. *)
Definition astimezone_utc (w : wall_clock) : outcome datetime :=
  if (year w =? 1) && (month w =? 1) && (day w =? 1) then Raise ValueError
  else Ok (mk_datetime w (Some 0)).

End IsoFormat.

Definition reference_runtime : PyRuntime :=
  {| fromisoformat := IsoFormat.parse;
     fromisoformat_empty := eq_refl;
     astimezone := IsoFormat.astimezone_utc |}.

(* ================================================================== *)
(** ** The specification's event kinds *)

Inductive EventKind : Type :=
| CardCreated | CardUpdated | CardDeleted | CardCommented | Unknown.

(** The lookup table of the specification (section 4.2), in its words:
    the four tags map to their kinds, any other value, absence included,
    to [Unknown].  The source has no such function; it tests the tag in
    [process_trello_event] and again in [create_embed], and the theorems
    compare those tests with this table. *)
Definition classify_spec (action_type : pyval) : EventKind :=
  match action_type with
  | PStr s =>
      if str_eqb s (lit "createCard") then CardCreated
      else if str_eqb s (lit "updateCard") then CardUpdated
      else if str_eqb s (lit "deleteCard") then CardDeleted
      else if str_eqb s (lit "commentCard") then CardCommented
      else Unknown
  | _ => Unknown
  end.

(** The title [create_embed] gives each kind. *)
Definition kind_title (k : EventKind) : pystr :=
  match k with
  | CardCreated => 0x1F195%N :: lit " New Card Created"
  | CardUpdated => 0x1F4DD%N :: lit " Card Updated"
  | CardDeleted => [0x1F5D1; 0xFE0F]%N ++ lit " Card Deleted"
  | CardCommented => 0x1F4AC%N :: lit " New Comment"
  | Unknown => 0x1F504%N :: lit " Trello Update"
  end.

(** The embeds handed to [channel.send] in a run. *)
Fixpoint sends (tr : list event) : list Embed :=
  match tr with
  | [] => []
  | EvSend e :: tr' => e :: sends tr'
  | _ :: tr' => sends tr'
  end.

(* ================================================================== *)
(** ** Sample data *)

Definition str (s : string) : pyval := PStr (lit s).

Definition ascii_bytes (s : string) : bytes :=
  map byte_of_ascii (list_ascii_of_string s).

(** [{"type": "createCard", "data": {}}] *)
Definition sparse_createCard : pyval :=
  PDict {[ lit "type" := str "createCard"; lit "data" := PDict ∅ ]}.

(** [{"type": "createCard", "date": "2024-01-15T10:30:00.000Z",
      "memberCreator": {"fullName": "Ann"},
      "data": {"card": {"name": "Sprint Plan"}, "list": {"name": "Backlog"}}}] *)
Definition full_createCard : pyval :=
  PDict {[ lit "type" := str "createCard";
           lit "date" := str "2024-01-15T10:30:00.000Z";
           lit "memberCreator" := PDict {[ lit "fullName" := str "Ann" ]};
           lit "data" :=
             PDict {[ lit "card" := PDict {[ lit "name" := str "Sprint Plan" ]};
                      lit "list" := PDict {[ lit "name" := str "Backlog" ]} ]} ]}.

(** [{"type": "updateBoard", "date": "2024-01-15T10:30:00.000Z",
      "memberCreator": {"fullName": "Ann"}}] *)
Definition board_renamed : pyval :=
  PDict {[ lit "type" := str "updateBoard";
           lit "date" := str "2024-01-15T10:30:00.000Z";
           lit "memberCreator" := PDict {[ lit "fullName" := str "Ann" ]} ]}.

(** A comment of 1500 characters, on a card without a name. *)
Definition long_comment : pyval :=
  PDict {[ lit "type" := str "commentCard";
           lit "date" := str "2024-01-15T10:30:00+00:00";
           lit "data" := PDict {[ lit "text" := PStr (repeat 120%N 1500) ]} ]}.

(** [{"action": action}] *)
Definition document (action : pyval) : pyval :=
  PDict {[ lit "action" := action ]}.

(** [{"type": "updateCard", "date": "2024-01-15T10:30:00+00:00",
      "data": {"card": {}, "old": {"name": "Old"}}}] *)
Definition renamed_card_without_name : pyval :=
  PDict {[ lit "type" := str "updateCard";
           lit "date" := str "2024-01-15T10:30:00+00:00";
           lit "data" := PDict {[ lit "card" := PDict ∅;
                                  lit "old" := PDict {[ lit "name" := str "Old" ]} ]} ]}.

(** The instant of the sample dates. *)
Definition sample_instant : datetime :=
  mk_datetime (mk_wall_clock 2024 1 15 10 30 0 0) (Some 0).

Definition no_secret : Config := mk_config None 42.
Definition with_secret : Config := mk_config (Some (lit "s3cret")) 42.

Definition bot_ready : Bot := mk_bot (fun _ => Some (mk_channel (fun _ => Ok tt))).
Definition bot_failing : Bot :=
  mk_bot (fun _ => Some (mk_channel (fun _ => Raise (OtherError 403)))).

(** The bytes of a JSON text written with ' for its double quotes. *)
Definition json_bytes (s : string) : bytes :=
  map (fun c => if Ascii.eqb c "'" then x22 else byte_of_ascii c)
      (list_ascii_of_string s).

Definition full_body : bytes :=
  json_bytes "{'action': {'type': 'createCard', 'date': '2024-01-15T10:30:00.000Z', 'memberCreator': {'fullName': 'Ann'}, 'data': {'card': {'name': 'Sprint Plan'}, 'list': {'name': 'Backlog'}}}}".

Definition sparse_body : bytes :=
  json_bytes "{'action': {'type': 'createCard', 'data': {}}}".

Definition garbage_body : bytes := ascii_bytes "{not json".

(** A POST with the given [X-Trello-Webhook] header, if any. *)
Definition post (sig : option pystr) (body : bytes) (doc : outcome pyval) : Request :=
  mk_request
    (fun h => if str_eqb h (lit "X-Trello-Webhook") then sig else None)
    (Ok body) doc.

(** The signature of [body] under the secret of [with_secret]. *)
Definition sign (body : bytes) : pystr :=
  SHA1.hmac_hexdigest (ascii_bytes "s3cret") body.

Definition signed_full : Request :=
  post (Some (sign full_body)) full_body (Ok (document full_createCard)).

Definition unsigned_full : Request :=
  post None full_body (Ok (document full_createCard)).

Definition unsigned_sparse : Request :=
  post None sparse_body (Ok (document sparse_createCard)).

Definition badly_signed_full : Request :=
  post (Some (lit "deadbeef")) full_body (Ok (document full_createCard)).

(** The signature header holds the one character U+00E9. *)
Definition latin1_signed_full : Request :=
  post (Some [233%N]) full_body (Ok (document full_createCard)).

(** Signed, and not JSON: [json.loads] raises [JSONDecodeError], a
    [ValueError]. *)
Definition signed_garbage : Request :=
  post (Some (sign garbage_body)) garbage_body (Raise ValueError).

(** A request with a signature header and a body larger than the
    application allows: reading it raises [HTTPRequestEntityTooLarge],
    here [OtherError 413]. *)
Definition oversized_request : Request :=
  mk_request
    (fun h => if str_eqb h (lit "X-Trello-Webhook") then Some (lit "deadbeef") else None)
    (Raise (OtherError 413)) (Raise (OtherError 413)).

(* ================================================================== *)
(** ** Tables read off [create_embed] *)

(** The colour each branch gives its embed. *)
Definition kind_color (k : EventKind) : Z :=
  match k with
  | CardCreated => 0x00ff00
  | CardUpdated => 0xffaa00
  | CardDeleted => 0xff0000
  | CardCommented => 0x0099ff
  | Unknown => 0x666666
  end.

(** The name of the field each branch adds last, for the member. *)
Definition kind_byline (k : EventKind) : pystr :=
  match k with
  | CardCreated => lit "Creator"
  | CardUpdated => lit "Updated by"
  | CardDeleted => lit "Deleted by"
  | CardCommented => lit "Comment by"
  | Unknown => lit "User"
  end.

Definition is_dict (v : pyval) : bool :=
  match v with
  | PDict _ => true
  | _ => false
  end.


(** The field [create_embed] adds under [n] when [key] is among the old
    values of an updated card. *)
Definition old_field (old : gmap (list N) pyval) (key n : pystr) (v : text)
  : list EmbedField :=
  if bool_decide (is_Some (old !! key)) then [mk_field n v false] else [].

(* ================================================================== *)
(** ** More sample data *)

(** [{"type": "updateCard", "date": "2024-01-15T10:30:00+00:00",
      "memberCreator": {"fullName": "Ann"},
      "data": {"card": {"name": "New"}, "old": {"name": "Old", "pos": 3}}}] *)
Definition moved_and_renamed : pyval :=
  PDict {[ lit "type" := str "updateCard";
           lit "date" := str "2024-01-15T10:30:00+00:00";
           lit "memberCreator" := PDict {[ lit "fullName" := str "Ann" ]};
           lit "data" := PDict {[ lit "card" := PDict {[ lit "name" := str "New" ]};
                                  lit "old" := PDict {[ lit "name" := str "Old";
                                                        lit "pos" := PInt 3 ]} ]} ]}.

(** [{"type": "deleteCard", "date": "2024-01-15T10:30:00+00:00",
      "data": {"card": {"name": "Gone"}}}] *)
Definition deleted_card : pyval :=
  PDict {[ lit "type" := str "deleteCard";
           lit "date" := str "2024-01-15T10:30:00+00:00";
           lit "data" := PDict {[ lit "card" := PDict {[ lit "name" := str "Gone" ]} ]} ]}.

(** The same event with the given date. *)
Definition deleted_card_on (date : string) : pyval :=
  PDict {[ lit "type" := str "deleteCard";
           lit "date" := str date;
           lit "data" := PDict {[ lit "card" := PDict {[ lit "name" := str "Gone" ]} ]} ]}.

(** [{"type": "createCard", "date": "2024-01-15T10:30:00+00:00", "data": null}] *)
Definition null_data_createCard : pyval :=
  PDict {[ lit "type" := str "createCard";
           lit "date" := str "2024-01-15T10:30:00+00:00";
           lit "data" := PNone ]}.

(** A digit of lowercase hexadecimal. *)
Definition is_lower_hex (c : N) : bool :=
  ((48 <=? c) && (c <=? 57) || (97 <=? c) && (c <=? 102))%N.

(** The secret holds a lone surrogate, as the environment gives for a byte
    that is not UTF-8. *)
Definition surrogate_secret : Config := mk_config (Some [115; 0xDC80]%N) 42.

(** The signature header is there and empty. *)
Definition empty_signed_full : Request :=
  post (Some []) full_body (Ok (document full_createCard)).

Definition empty_secret : Config := mk_config (Some []) 42.

(** No channel under the configured id. *)
Definition bot_without_channel : Bot := mk_bot (fun _ => None).

(** A JSON array where the object is expected. *)
Definition array_request : Request := post None (ascii_bytes "[]") (Ok (PList [])).

(* ================================================================== *)
(** ** The administrative commands *)

(** The credentials and the public address, [os.environ.get(...)]: [None]
    when the variable is not set. *)
Record ApiConfig : Type := mk_api
  { TRELLO_API_KEY : option pystr;
    TRELLO_TOKEN : option pystr;
    WEBHOOK_URL : option pystr }.

(** A value of the environment as the program uses it: the string or [None]. *)
Definition env (o : option pystr) : pyval :=
  match o with
  | Some s => PStr s
  | None => PNone
  end.

Inductive http_verb : Type := POST | GET | DELETE.

(** A value of a dict literal: a value as it is, or an f-string. *)
Inductive http_arg : Type :=
| Raw (v : pyval)
| FString (t : text).

(** [session.post(url, data=d)], [session.get(url, params=d)] and
    [session.delete(url, params=d)], with the entries of [d] in the order of
    the literal. *)
Record HttpCall : Type := mk_call
  { verb : http_verb; url : text; entries : list (pystr * http_arg) }.

(** The response inside [async with ... as response]: [response.status]
    and [await response.json()]. *)
Record HttpResponse : Type := mk_http_response
  { http_status : Z; http_json : outcome pyval }.

(** The HTTP session: entering [async with session.<verb>(...)] gives a
    response or raises. *)
Record Session : Type := mk_session
  { perform : HttpCall -> outcome HttpResponse }.

(** The text of a reply: literal text, formatted values, and [str(e)] for
    an exception. *)
Inductive rpart : Type :=
| RLit (s : pystr)
| RFmt (v : pyval)
| RExn (e : exn).

Abbreviation reply := (list rpart) (only parsing).

(** The invocation context of a command: [await ctx.send(text)]. *)
Record CommandCtx : Type := mk_ctx
  { ctx_send : reply -> outcome unit }.

(** A channel as [test_channel] uses it: [channel.name] and
    [await channel.send(text)]. *)
Record TextChannel : Type := mk_text_channel
  { channel_name : outcome pyval;
    send_text : pystr -> outcome unit }.

Record ChatClient : Type := mk_client
  { get_text_channel : Z -> option TextChannel }.

(** What a run of a command does, step by step. *)
Inductive cmd_event : Type :=
| CmdCall (c : HttpCall)         (* the HTTP call is made *)
| CmdJson                        (* response.json() is awaited *)
| CmdGetChannel (id : Z)         (* bot.get_channel(id) *)
| CmdChannelSend (s : pystr)     (* channel.send(s) is awaited *)
| CmdReply (r : reply).          (* ctx.send(r) is awaited *)

(** A run with events of any kind, as [M] is for the handler's. *)
Definition W (E A : Type) : Type := list E * outcome A.

Definition wret {E A} (a : A) : W E A := ([], Ok a).

Definition wbind {E A B} (m : W E A) (k : A -> W E B) : W E B :=
  match m with
  | (tr, Ok a) => let '(tr', r) := k a in (tr ++ tr', r)
  | (tr, Raise e) => (tr, Raise e)
  end.

Definition wemit {E} (ev : E) : W E unit := ([ev], Ok tt).

Definition wlift {E A} (o : outcome A) : W E A := ([], o).

(** [try: m  except Exception as e: h e] *)
Definition wtry {E A} (m : W E A) (h : exn -> W E A) : W E A :=
  match m with
  | (tr, Ok a) => (tr, Ok a)
  | (tr, Raise e) => let '(tr', r) := h e in (tr ++ tr', r)
  end.

Notation "'let+' x ':=' m 'in' k" := (wbind m (fun x => k))
  (at level 10, x name, m at level 100, k at level 200,
   format "'[v' 'let+'  x  ':='  m  'in' '/' k ']'") : py_scope.
Notation "m ';+' k" := (wbind m (fun _ => k))
  (at level 100, k at level 200, right associativity) : py_scope.

(** [bool(v)] *)
Definition truthy (v : pyval) : bool :=
  match v with
  | PNone => false
  | PBool b => b
  | PInt n => negb (n =? 0)
  | PFloat x => negb (PrimFloat.eqb x PrimFloat.zero)
  | PStr s => negb (bool_decide (s = []))
  | PList items => negb (bool_decide (items = []))
  | PDict d => negb (bool_decide (size d = 0%nat))
  end.

(** [for w in v]: the items of a list, the characters of a string, the keys
    of an object (here in the order of the map, where Python has the order
    of insertion); nothing else iterates. *)
Definition iterate (v : pyval) : outcome (list pyval) :=
  match v with
  | PList items => Ok items
  | PStr s => Ok (map (fun c => PStr [c]) s)
  | PDict d => Ok (map (fun kv => PStr (fst kv)) (map_to_list d))
  | _ => Raise TypeError
  end.

(** A list comprehension whose element expression may raise: the first
    exception ends it. *)
Fixpoint comprehension {A B} (f : A -> outcome B) (l : list A) : outcome (list B) :=
  match l with
  | [] => Ok []
  | x :: l' =>
      let? y := f x in
      let? ys := comprehension f l' in
      Ok (y :: ys)
  end.

(** [sep.join(l)] *)
Fixpoint join (sep : reply) (l : list reply) : reply :=
  match l with
  | [] => []
  | [x] => x
  | x :: l' => x ++ sep ++ join sep l'
  end.

Definition cross : N := 0x274C.
Definition check_mark : N := 0x2705.
Definition clipboard : N := 0x1F4CB.
Definition test_tube : N := 0x1F9EA.

(** The four commands, by their bodies.  Whether a command runs at all
    (its name, the permission check of its decorator, the conversion of its
    argument to a string) is the framework's affair and comes before. *)
Section Commands.

Variable api : ApiConfig.
Variable cfg : Config.
Variable session : Session.
Variable client : ChatClient.

Definition call (c : HttpCall) : W cmd_event HttpResponse :=
  wemit (CmdCall c);+ wlift (perform session c).

Definition read_json (response : HttpResponse) : W cmd_event pyval :=
  wemit CmdJson;+ wlift (http_json response).

Definition say (ctx : CommandCtx) (r : reply) : W cmd_event unit :=
  wemit (CmdReply r);+ wlift (ctx_send ctx r).

(** [f"<cross> Error: {str(e)}"], the reply of every [except] clause. *)
Definition error_reply (e : exn) : reply :=
  [RLit (cross :: lit " Error: "); RExn e].

Definition webhook_data (board_id : pystr) : list (pystr * http_arg) :=
  [(lit "key", Raw (env (TRELLO_API_KEY api)));
   (lit "token", Raw (env (TRELLO_TOKEN api)));
   (lit "callbackURL", FString [Fmt (env (WEBHOOK_URL api)); Lit (lit "/webhook")]);
   (lit "idModel", Raw (PStr board_id));
   (lit "description", Raw (PStr (lit "Discord Bot Webhook")))].

Definition setup_webhook (ctx : CommandCtx) (board_id : pystr) : W cmd_event unit :=
  wtry
    (let+ response :=
       call (mk_call POST [Lit (lit "https://api.trello.com/1/webhooks")]
                     (webhook_data board_id)) in
     if http_status response =? 200 then
       let+ result := read_json response in
       let+ id := wlift (Py.getitem result (lit "id")) in
       say ctx [RLit (check_mark :: lit " Webhook created successfully! ID: "); RFmt id]
     else
       say ctx [RLit (cross :: lit " Failed to create webhook. Status: ");
                RFmt (PInt (http_status response))])
    (fun e => say ctx (error_reply e)).

(** [f"ID: {w['id']}, Board: {w['idModel']}"] *)
Definition webhook_line (w : pyval) : outcome reply :=
  let? id := Py.getitem w (lit "id") in
  let? model := Py.getitem w (lit "idModel") in
  Ok [RLit (lit "ID: "); RFmt id; RLit (lit ", Board: "); RFmt model].

(** [f"<clipboard> Active webhooks:\n```{webhook_list}```"] *)
Definition listing (webhook_list : reply) : reply :=
  [RLit (clipboard :: lit " Active webhooks:" ++ 10%N :: lit "```")]
    ++ webhook_list ++ [RLit (lit "```")].

Definition list_webhooks (ctx : CommandCtx) : W cmd_event unit :=
  wtry
    (let+ response :=
       call (mk_call GET
               [Lit (lit "https://api.trello.com/1/tokens/");
                Fmt (env (TRELLO_TOKEN api)); Lit (lit "/webhooks")]
               [(lit "key", Raw (env (TRELLO_API_KEY api)))]) in
     if http_status response =? 200 then
       let+ webhooks := read_json response in
       if truthy webhooks then
         let+ lines :=
           wlift (let? items := iterate webhooks in
                  comprehension webhook_line items) in
         say ctx (listing (join [RLit [10%N]] lines))
       else say ctx [RLit (clipboard :: lit " No webhooks found.")]
     else
       say ctx [RLit (cross :: lit " Failed to fetch webhooks. Status: ");
                RFmt (PInt (http_status response))])
    (fun e => say ctx (error_reply e)).

Definition delete_webhook (ctx : CommandCtx) (webhook_id : pystr) : W cmd_event unit :=
  wtry
    (let+ response :=
       call (mk_call DELETE
               [Lit (lit "https://api.trello.com/1/webhooks/"); Fmt (PStr webhook_id)]
               [(lit "key", Raw (env (TRELLO_API_KEY api)));
                (lit "token", Raw (env (TRELLO_TOKEN api)))]) in
     if http_status response =? 200 then
       say ctx [RLit (check_mark :: lit " Webhook "); RFmt (PStr webhook_id);
                RLit (lit " deleted successfully!")]
     else
       say ctx [RLit (cross :: lit " Failed to delete webhook. Status: ");
                RFmt (PInt (http_status response))])
    (fun e => say ctx (error_reply e)).

Definition test_message : pystr := test_tube :: lit " Test message from Trello bot!".

Definition test_channel (ctx : CommandCtx) : W cmd_event unit :=
  wtry
    (wemit (CmdGetChannel (DISCORD_CHANNEL_ID cfg));+
     match get_text_channel client (DISCORD_CHANNEL_ID cfg) with
     | Some channel =>
         wemit (CmdChannelSend test_message);+
         wlift (send_text channel test_message);+
         let+ name := wlift (channel_name channel) in
         say ctx [RLit (check_mark :: lit " Test message sent to "); RFmt name]
     | None =>
         say ctx [RLit (cross :: lit " Channel with ID ");
                  RFmt (PInt (DISCORD_CHANNEL_ID cfg)); RLit (lit " not found")]
     end)
    (fun e => say ctx (error_reply e)).

End Commands.

(** The replies of a run, and its HTTP calls. *)
Fixpoint replies (tr : list cmd_event) : list reply :=
  match tr with
  | [] => []
  | CmdReply r :: tr' => r :: replies tr'
  | _ :: tr' => replies tr'
  end.

Fixpoint calls (tr : list cmd_event) : list HttpCall :=
  match tr with
  | [] => []
  | CmdCall c :: tr' => c :: calls tr'
  | _ :: tr' => calls tr'
  end.

(** A body of a command did its part: it replied once, as its last step,
    and ended as that reply did; or it raised without replying. *)
Definition replied_once (ctx : CommandCtx) (m : W cmd_event unit) : Prop :=
  (exists r, replies (fst m) = [r] /\ snd m = ctx_send ctx r) \/
  (replies (fst m) = [] /\ exists x, snd m = Raise x).

(** The replies of the commands. *)
Definition created_reply (id : pyval) : reply :=
  [RLit (check_mark :: lit " Webhook created successfully! ID: "); RFmt id].

Definition deleted_reply (webhook_id : pystr) : reply :=
  [RLit (check_mark :: lit " Webhook "); RFmt (PStr webhook_id);
   RLit (lit " deleted successfully!")].

Definition sent_reply (name : pyval) : reply :=
  [RLit (check_mark :: lit " Test message sent to "); RFmt name].

Definition no_webhooks_reply : reply :=
  [RLit (clipboard :: lit " No webhooks found.")].

(** The calls the three commands make. *)
Definition setup_call (api : ApiConfig) (board_id : pystr) : HttpCall :=
  mk_call POST [Lit (lit "https://api.trello.com/1/webhooks")]
          (webhook_data api board_id).

Definition list_call (api : ApiConfig) : HttpCall :=
  mk_call GET
    [Lit (lit "https://api.trello.com/1/tokens/");
     Fmt (env (TRELLO_TOKEN api)); Lit (lit "/webhooks")]
    [(lit "key", Raw (env (TRELLO_API_KEY api)))].

Definition delete_call (api : ApiConfig) (webhook_id : pystr) : HttpCall :=
  mk_call DELETE
    [Lit (lit "https://api.trello.com/1/webhooks/"); Fmt (PStr webhook_id)]
    [(lit "key", Raw (env (TRELLO_API_KEY api)));
     (lit "token", Raw (env (TRELLO_TOKEN api)))].

(** [w] is an object with an [id] and an [idModel], and [l] is its line. *)
Definition line_of (w : pyval) (l : reply) : Prop :=
  exists d id model,
    w = PDict d /\ d !! lit "id" = Some id /\ d !! lit "idModel" = Some model /\
    l = [RLit (lit "ID: "); RFmt id; RLit (lit ", Board: "); RFmt model].

(** [w] is no object, or lacks [id] or [idModel]. *)
Definition malformed_webhook (w : pyval) : Prop :=
  match w with
  | PDict d => d !! lit "id" = None \/ d !! lit "idModel" = None
  | _ => True
  end.

(** The bodies of the commands, inside their [try], case by case. *)
Section CommandBodies.

Variable api : ApiConfig.
Variable cfg : Config.
Variable session : Session.
Variable client : ChatClient.
Variable ctx : CommandCtx.

Definition failed_reply (what : pystr) (status : Z) : reply :=
  [RLit (cross :: lit " Failed to " ++ what ++ lit ". Status: "); RFmt (PInt status)].

Definition setup_body (board_id : pystr) : W cmd_event unit :=
  let c := setup_call api board_id in
  match perform session c with
  | Raise x => ([CmdCall c], Raise x)
  | Ok response =>
      if http_status response =? 200 then
        match http_json response with
        | Raise x => ([CmdCall c; CmdJson], Raise x)
        | Ok result =>
            match Py.getitem result (lit "id") with
            | Raise x => ([CmdCall c; CmdJson], Raise x)
            | Ok id =>
                ([CmdCall c; CmdJson; CmdReply (created_reply id)],
                 ctx_send ctx (created_reply id))
            end
        end
      else
        let r := failed_reply (lit "create webhook") (http_status response) in
        ([CmdCall c; CmdReply r], ctx_send ctx r)
  end.

Definition list_body : W cmd_event unit :=
  let c := list_call api in
  match perform session c with
  | Raise x => ([CmdCall c], Raise x)
  | Ok response =>
      if http_status response =? 200 then
        match http_json response with
        | Raise x => ([CmdCall c; CmdJson], Raise x)
        | Ok webhooks =>
            if truthy webhooks then
              match (let? items := iterate webhooks in
                     comprehension webhook_line items) with
              | Raise x => ([CmdCall c; CmdJson], Raise x)
              | Ok lines =>
                  let r := listing (join [RLit [10%N]] lines) in
                  ([CmdCall c; CmdJson; CmdReply r], ctx_send ctx r)
              end
            else
              ([CmdCall c; CmdJson; CmdReply no_webhooks_reply],
               ctx_send ctx no_webhooks_reply)
        end
      else
        let r := failed_reply (lit "fetch webhooks") (http_status response) in
        ([CmdCall c; CmdReply r], ctx_send ctx r)
  end.

Definition delete_body (webhook_id : pystr) : W cmd_event unit :=
  let c := delete_call api webhook_id in
  match perform session c with
  | Raise x => ([CmdCall c], Raise x)
  | Ok response =>
      let r := if http_status response =? 200 then deleted_reply webhook_id
               else failed_reply (lit "delete webhook") (http_status response) in
      ([CmdCall c; CmdReply r], ctx_send ctx r)
  end.

Definition test_body : W cmd_event unit :=
  let id := DISCORD_CHANNEL_ID cfg in
  match get_text_channel client id with
  | None =>
      let r := [RLit (cross :: lit " Channel with ID "); RFmt (PInt id);
                RLit (lit " not found")] in
      ([CmdGetChannel id; CmdReply r], ctx_send ctx r)
  | Some channel =>
      match send_text channel test_message with
      | Raise x => ([CmdGetChannel id; CmdChannelSend test_message], Raise x)
      | Ok _ =>
          match channel_name channel with
          | Raise x => ([CmdGetChannel id; CmdChannelSend test_message], Raise x)
          | Ok name =>
              ([CmdGetChannel id; CmdChannelSend test_message;
                CmdReply (sent_reply name)],
               ctx_send ctx (sent_reply name))
          end
      end
  end.

End CommandBodies.

(** What follows the reply [r] of a body: nothing when it went through,
    the error reply when it raised. *)
Definition after_reply (ctx : CommandCtx) (r : reply) : list cmd_event :=
  match ctx_send ctx r with
  | Ok _ => []
  | Raise x => [CmdReply (error_reply x)]
  end.

(** A command keeps to one reply: one reply that went through and the
    command returns; or a reply that raised, then the error reply for it;
    or the error reply alone; in the last two the command ends as the error
    reply does. *)
Definition one_reply (ctx : CommandCtx) (run : W cmd_event unit) : Prop :=
  (exists r, replies (fst run) = [r] /\ ctx_send ctx r = Ok tt /\ snd run = Ok tt) \/
  (exists r x, replies (fst run) = [r; error_reply x] /\
               ctx_send ctx r = Raise x /\
               snd run = ctx_send ctx (error_reply x)) \/
  (exists x, replies (fst run) = [error_reply x] /\
             snd run = ctx_send ctx (error_reply x)).

(* ================================================================== *)
(** ** Sample data for the commands and the embeds *)

(** The embed of [full_createCard]. *)
Definition full_createCard_embed : Embed :=
  mk_embed (kind_title CardCreated)
    [Lit (lit "**"); Fmt (str "Sprint Plan"); Lit (lit "**")] 0x00ff00 sample_instant
    [mk_field (lit "List") [Fmt (str "Backlog")] true;
     mk_field (lit "Creator") [Fmt (str "Ann")] true].

(** Key and token set, the public address not. *)
Definition api_without_address : ApiConfig :=
  mk_api (Some (lit "key")) (Some (lit "token")) None.

(** Every call answers 200 with the JSON [doc]. *)
Definition session_answering (doc : pyval) : Session :=
  mk_session (fun _ => Ok (mk_http_response 200 (Ok doc))).

(** [{"id": "wh1", "idModel": "b1"}] and [{"id": "wh2", "idModel": "b2"}] *)
Definition webhook_1 : pyval :=
  PDict {[ lit "id" := str "wh1"; lit "idModel" := str "b1" ]}.
Definition webhook_2 : pyval :=
  PDict {[ lit "id" := str "wh2"; lit "idModel" := str "b2" ]}.

Definition ctx_ready : CommandCtx := mk_ctx (fun _ => Ok tt).

Definition client_without_channel : ChatClient := mk_client (fun _ => None).

(* ================================================================== *)
(** ** Properties of [create_embed] *)

Lemma obind_ok_inv {A B} (m : outcome A) (k : A -> outcome B) (b : B) :
  obind m k = Ok b -> exists a, m = Ok a /\ k a = Ok b.
Proof. destruct m; cbn; [eauto | discriminate]. Qed.

Ltac bind_inv H :=
  let a := fresh "a" in
  let Hm := fresh "Hm" in
  apply obind_ok_inv in H; destruct H as (a & Hm & H).

Lemma in_strs_actionable (ty : pyval) :
  Py.in_strs ty actionable =
    Py.eq_str ty (lit "createCard") || (Py.eq_str ty (lit "updateCard")
    || (Py.eq_str ty (lit "deleteCard") || Py.eq_str ty (lit "commentCard"))).
Proof. unfold Py.in_strs, actionable. cbn [existsb]. now rewrite orb_false_r. Qed.

Lemma classify_spec_unknown (ty : pyval) :
  classify_spec ty = Unknown <-> Py.in_strs ty actionable = false.
Proof.
  rewrite in_strs_actionable. destruct ty; cbn [classify_spec Py.eq_str orb];
    try tauto.
  repeat (destruct (str_eqb s _); cbn [orb]; [split; discriminate |]). tauto.
Qed.

Section Formatter.

Context {rt : PyRuntime}.

Lemma get_dict (a : gmap (list N) pyval) (key : pystr) (dflt : pyval) :
  Py.get (PDict a) key dflt = Ok (default dflt (a !! key)).
Proof. reflexivity. Qed.

Lemma get_ok_dict (v : pyval) (key : pystr) (dflt x : pyval) :
  Py.get v key dflt = Ok x -> exists a, v = PDict a.
Proof. destruct v; try discriminate. eauto. Qed.

Lemma discord_Embed_ok_inv ttl desc col ts e :
  discord_Embed ttl desc col ts = Ok e ->
  title e = ttl /\ description e = desc /\ color e = col /\ fields e = [] /\
  set_timestamp ts = Ok (timestamp e).
Proof.
  unfold discord_Embed. intros H. bind_inv H. injection H as <-. cbn. auto.
Qed.

Lemma card_embed_ok_inv ttl card col date e :
  card_embed ttl card col date = Ok e ->
  title e = ttl /\ color e = col /\ fields e = [] /\
  exists ts, parse_date date = Ok ts /\ set_timestamp ts = Ok (timestamp e).
Proof.
  unfold card_embed. intros H. bind_inv H. bind_inv H.
  apply discord_Embed_ok_inv in H as (? & _ & ? & ? & ?). eauto 6.
Qed.





(** The branch of an unrecognised tag, whole. *)
Lemma create_embed_unknown
      (action ty member user : pyval) (d : pystr) (ts stamp : datetime) :
  Py.get action (lit "type") PNone = Ok ty ->
  classify_spec ty = Unknown ->
  Py.get action (lit "memberCreator") Py.empty_dict = Ok member ->
  Py.get member (lit "fullName") unknown = Ok user ->
  Py.get action (lit "date") (PStr []) = Ok (PStr d) ->
  fromisoformat (replace_char 90%N (lit "+00:00") d) = Some ts ->
  set_timestamp ts = Ok stamp ->
  create_embed action =
    Ok (mk_embed (0x1F504%N :: lit " Trello Update")
          [Lit (lit "Action: "); Fmt ty] 0x666666 stamp
          [mk_field (lit "User") [Fmt user] true]).
Proof.
  intros Hty Hk Hm Hu Hd Hts Hst.
  apply classify_spec_unknown in Hk. rewrite in_strs_actionable in Hk.
  apply orb_false_elim in Hk as (H1 & Hk).
  apply orb_false_elim in Hk as (H2 & Hk).
  apply orb_false_elim in Hk as (H3 & H4).
  unfold create_embed. rewrite Hty, Hm, Hd. cbn [obind].
  rewrite H1, H2, H3, H4. unfold parse_date, discord_Embed.
  cbn [obind Py.replace]. rewrite Hts. cbn [obind]. rewrite Hst. cbn [obind].
  rewrite Hu. reflexivity.
Qed.

(** The branch of a new card, whole. *)
Lemma create_embed_createCard
      (action card list_info member card_name list_name creator : pyval)
      (d : pystr) (ts stamp : datetime) :
  Py.get action (lit "type") PNone = Ok (str "createCard") ->
  Py.get action (lit "memberCreator") Py.empty_dict = Ok member ->
  Py.get action (lit "date") (PStr []) = Ok (PStr d) ->
  data_get action (lit "card") Py.empty_dict = Ok card ->
  data_get action (lit "list") Py.empty_dict = Ok list_info ->
  Py.get card (lit "name") unknown = Ok card_name ->
  Py.get list_info (lit "name") unknown = Ok list_name ->
  Py.get member (lit "fullName") unknown = Ok creator ->
  fromisoformat (replace_char 90%N (lit "+00:00") d) = Some ts ->
  set_timestamp ts = Ok stamp ->
  create_embed action =
    Ok (mk_embed (0x1F195%N :: lit " New Card Created")
          [Lit (lit "**"); Fmt card_name; Lit (lit "**")] 0x00ff00 stamp
          [mk_field (lit "List") [Fmt list_name] true;
           mk_field (lit "Creator") [Fmt creator] true]).
Proof.
  intros Hty Hm Hd Hc Hl Hcn Hln Hcr Hts Hst.
  unfold create_embed. rewrite Hty, Hm, Hd. cbn [obind].
  change (Py.eq_str (str "createCard") (lit "createCard")) with true.
  cbn iota. rewrite Hc, Hl. cbn [obind].
  unfold card_embed, parse_date, discord_Embed. rewrite Hcn.
  cbn [obind Py.replace]. rewrite Hts. cbn [obind]. rewrite Hst. cbn [obind].
  rewrite Hln. cbn [obind]. rewrite Hcr. reflexivity.
Qed.

(** The comment branch, whole. *)
Lemma create_embed_commentCard
      (action card member card_name creator : pyval) (txt d : pystr)
      (ts stamp : datetime) :
  Py.get action (lit "type") PNone = Ok (str "commentCard") ->
  Py.get action (lit "memberCreator") Py.empty_dict = Ok member ->
  Py.get action (lit "date") (PStr []) = Ok (PStr d) ->
  data_get action (lit "card") Py.empty_dict = Ok card ->
  data_get action (lit "text") (PStr []) = Ok (PStr txt) ->
  Py.get card (lit "name") unknown = Ok card_name ->
  Py.get member (lit "fullName") unknown = Ok creator ->
  fromisoformat (replace_char 90%N (lit "+00:00") d) = Some ts ->
  set_timestamp ts = Ok stamp ->
  create_embed action =
    Ok (mk_embed (0x1F4AC%N :: lit " New Comment")
          [Lit (lit "**"); Fmt card_name; Lit (lit "**")] 0x0099ff stamp
          [mk_field (lit "Comment")
             [Fmt (PStr (if (1000 <? length txt)%nat
                         then firstn 1000 txt ++ lit "..." else txt))] false;
           mk_field (lit "Comment by") [Fmt creator] true]).
Proof.
  intros Hty Hm Hd Hc Ht Hcn Hcr Hts Hst.
  unfold create_embed. rewrite Hty, Hm, Hd. cbn [obind].
  change (Py.eq_str (str "commentCard") (lit "createCard")) with false.
  change (Py.eq_str (str "commentCard") (lit "updateCard")) with false.
  change (Py.eq_str (str "commentCard") (lit "deleteCard")) with false.
  change (Py.eq_str (str "commentCard") (lit "commentCard")) with true.
  cbn iota. rewrite Hc, Ht. cbn [obind].
  unfold card_embed, parse_date, discord_Embed. rewrite Hcn.
  cbn [obind Py.replace]. rewrite Hts. cbn [obind]. rewrite Hst.
  cbn [obind comment_value Py.len].
  destruct (1000 <? length txt)%nat; cbn [obind Py.slice_to Py.add_str];
    rewrite Hcr; reflexivity.
Qed.

End Formatter.

(* ================================================================== *)
(** ** The formatter against the specification *)

Section FormatterClaims.

Context {rt : PyRuntime}.

(** C1.  The sparse event [{"type": "createCard", "data": {}}] yields no
    message: the absent date defaults to the empty string, which
    [datetime.fromisoformat] refuses, and [create_embed] raises [ValueError]
    where the specification wants a message with "Unknown" placeholders. *)
Theorem C1_sparse_createCard_raises :
  create_embed sparse_createCard = Raise ValueError.
Proof.
  destruct rt as [parse Hempty local]. vm_compute.
  cbn in Hempty. now rewrite Hempty.
Qed.

(** Once the date is there, parses and is taken as the timestamp, the
    names that are absent are "Unknown". *)
Lemma create_embed_createCard_absent_names
      (a : gmap (list N) pyval) (d : pystr) (ts stamp : datetime) :
  a !! lit "type" = Some (str "createCard") ->
  a !! lit "memberCreator" = None ->
  a !! lit "data" = None \/ a !! lit "data" = Some (PDict ∅) ->
  a !! lit "date" = Some (PStr d) ->
  fromisoformat (replace_char 90%N (lit "+00:00") d) = Some ts ->
  set_timestamp ts = Ok stamp ->
  create_embed (PDict a) =
    Ok (mk_embed (0x1F195%N :: lit " New Card Created")
          [Lit (lit "**"); Fmt unknown; Lit (lit "**")] 0x00ff00 stamp
          [mk_field (lit "List") [Fmt unknown] true;
           mk_field (lit "Creator") [Fmt unknown] true]).
Proof.
  intros Hty Hm Hdata Hd Hts Hst.
  apply create_embed_createCard
    with (card := PDict ∅) (list_info := PDict ∅) (member := PDict ∅)
         (d := d) (ts := ts);
    rewrite ?get_dict, ?Hty, ?Hm, ?Hd; try reflexivity; try assumption;
    unfold data_get; rewrite get_dict; destruct Hdata as [-> | ->]; reflexivity.
Qed.

(** C7.  A [commentCard] event whose text is a string: in the embed
    [create_embed] builds from it, the value of the "Comment" field is the
    text itself up to 1000 characters, and its first 1000 characters
    followed by "..." beyond, 1003 characters in all (so for a text of
    1500). *)
Theorem C7_comment_truncation
        (action member creator : pyval) (txt : pystr) (e : Embed) :
  Py.get action (lit "type") PNone = Ok (str "commentCard") ->
  Py.get action (lit "memberCreator") Py.empty_dict = Ok member ->
  Py.get member (lit "fullName") unknown = Ok creator ->
  data_get action (lit "text") (PStr []) = Ok (PStr txt) ->
  create_embed action = Ok e ->
  exists v : pystr,
    fields e = [mk_field (lit "Comment") [Fmt (PStr v)] false;
                mk_field (lit "Comment by") [Fmt creator] true] /\
    ((length txt <= 1000)%nat -> v = txt) /\
    ((1000 < length txt)%nat ->
       v = firstn 1000 txt ++ lit "..." /\ length v = 1003%nat) /\
    (length txt = 1500%nat -> length v = 1003%nat).
Proof.
  intros Hty Hm Hcr Ht He.
  unfold create_embed in He. rewrite Hty, Hm in He. cbn [obind] in He.
  bind_inv He.
  change (Py.eq_str (str "commentCard") (lit "createCard")) with false in He.
  change (Py.eq_str (str "commentCard") (lit "updateCard")) with false in He.
  change (Py.eq_str (str "commentCard") (lit "deleteCard")) with false in He.
  change (Py.eq_str (str "commentCard") (lit "commentCard")) with true in He.
  cbn iota in He. bind_inv He. rewrite Ht in He. cbn [obind] in He.
  bind_inv He.
  match goal with
  | H : card_embed _ _ _ _ = Ok _ |- _ =>
      apply card_embed_ok_inv in H as (_ & _ & Hf & _)
  end.
  assert (Hlong : (1000 < length txt)%nat ->
                  length (firstn 1000 txt ++ lit "...") = 1003%nat).
  { intros Hl. rewrite length_app, length_firstn.
    change (length (lit "...")) with 3%nat. lia. }
  cbn [comment_value Py.len obind] in He.
  destruct (Nat.ltb_spec 1000 (length txt)) as [Hl | Hl];
    cbn [Py.slice_to Py.add_str obind] in He; rewrite Hcr in He;
    injection He as <-; cbn [fields add_field]; rewrite Hf;
    eexists; (split; [reflexivity |]);
    repeat split; intros; auto; lia.
Qed.

(** C8, amended.  For an event whose tag is none of the four, the embed
    [create_embed] builds has for title the refresh sign followed by
    " Trello Update", for description "Action: " followed by the tag as it
    came, the colour 0x666666, and one field, "User", which carries the
    [fullName] of [memberCreator], "Unknown" when either is absent. *)
Theorem C8_unknown_kind_embed (action ty : pyval) (e : Embed) :
  Py.get action (lit "type") PNone = Ok ty ->
  classify_spec ty = Unknown ->
  create_embed action = Ok e ->
  title e = 0x1F504%N :: lit " Trello Update" /\
  description e = [Lit (lit "Action: "); Fmt ty] /\
  color e = 0x666666 /\
  exists member user : pyval,
    Py.get action (lit "memberCreator") Py.empty_dict = Ok member /\
    Py.get member (lit "fullName") unknown = Ok user /\
    fields e = [mk_field (lit "User") [Fmt user] true].
Proof.
  intros Hty Hk He.
  apply classify_spec_unknown in Hk. rewrite in_strs_actionable in Hk.
  apply orb_false_elim in Hk as (H1 & Hk).
  apply orb_false_elim in Hk as (H2 & Hk).
  apply orb_false_elim in Hk as (H3 & H4).
  unfold create_embed in He. rewrite Hty in He. cbn [obind] in He.
  apply obind_ok_inv in He as (member & Hm & He). bind_inv He.
  rewrite H1, H2, H3, H4 in He. bind_inv He. bind_inv He.
  apply obind_ok_inv in He as (user & Hu & He). injection He as <-.
  match goal with
  | H : discord_Embed _ _ _ _ = Ok _ |- _ =>
      apply discord_Embed_ok_inv in H as (Ht & Hd & Hc & Hf & _)
  end.
  cbn [title description color fields add_field].
  rewrite Ht, Hd, Hc, Hf. eauto 8.
Qed.

End FormatterClaims.

(** In the "Name Changed" field the new name is read without the default
    its siblings give, and an absent name prints as "None". *)
Example name_changed_prints_None :
  exists (e : Embed) (f : EmbedField),
    @create_embed reference_runtime renamed_card_without_name = Ok e /\
    fields e !! 0%nat = Some f /\
    name f = lit "Name Changed" /\
    value f = [Lit (lit "From: "); Fmt (str "Old"); Lit (10%N :: lit "To: "); Fmt PNone] /\
    render (value f) = Some (lit "From: Old" ++ 10%N :: lit "To: None") /\
    render (description e) = Some (lit "**Unknown**").
Proof.
  eexists _, _. split; [vm_compute; reflexivity |]. split; [reflexivity |].
  repeat split.
Qed.

(** A date without offset is read in the local zone of the machine: on the
    reference runtime the timestamp of the embed is the date at offset 0,
    where the date parsed has none. *)
Example naive_date_is_localised :
  exists (e : Embed) (ts : datetime),
    @create_embed reference_runtime (deleted_card_on "2024-01-15T10:30:00") = Ok e /\
    IsoFormat.parse (lit "2024-01-15T10:30:00") = Some ts /\
    utcoffset ts = None /\
    timestamp e = mk_datetime (clock ts) (Some 0).
Proof.
  eexists _, _. split; [vm_compute; reflexivity |].
  split; [vm_compute; reflexivity |]. split; reflexivity.
Qed.

(** A date without offset on the first day of year 1 parses, and
    [discord.Embed] raises on it: no embed is built. *)
Example first_day_is_refused :
  IsoFormat.parse (lit "0001-01-01T00:00:00") <> None /\
  @create_embed reference_runtime (deleted_card_on "0001-01-01T00:00:00")
    = Raise ValueError.
Proof. split; [vm_compute; discriminate | vm_compute; reflexivity]. Qed.

Lemma C7_witness :
  exists (e : Embed) (v : pystr),
    @create_embed reference_runtime long_comment = Ok e /\
    fields e = [mk_field (lit "Comment") [Fmt (PStr v)] false;
                mk_field (lit "Comment by") [Fmt unknown] true] /\
    v = firstn 1000 (repeat 120%N 1500) ++ lit "..." /\
    length v = 1003%nat.
Proof.
  eexists.
  destruct (@C7_comment_truncation reference_runtime long_comment
              (PDict ∅) unknown (repeat 120%N 1500) _
              eq_refl eq_refl eq_refl eq_refl eq_refl)
    as (v & Hf & _ & Hlong & _).
  exists v. split; [reflexivity |]. split; [exact Hf |].
  apply Hlong. rewrite repeat_length. lia.
Defined.

(** C8 as the specification words it fails: the title of the embed for an
    unrecognised tag is not "Generic Update", nor does it contain it. *)
Lemma C8_title_is_not_generic_update :
  exists e : Embed,
    @create_embed reference_runtime board_renamed = Ok e /\
    title e = 0x1F504%N :: lit " Trello Update" /\
    title e <> lit "Generic Update" /\
    PyStr.contains (lit "Generic Update") (title e) = false.
Proof.
  eexists. split; [vm_compute; reflexivity |]. split; [reflexivity |].
  split; [vm_compute; discriminate | vm_compute; reflexivity].
Qed.

Lemma C8_witness :
  exists e : Embed,
    @create_embed reference_runtime board_renamed = Ok e /\
    title e = 0x1F504%N :: lit " Trello Update" /\
    description e = [Lit (lit "Action: "); Fmt (str "updateBoard")] /\
    color e = 0x666666 /\
    fields e = [mk_field (lit "User") [Fmt (str "Ann")] true].
Proof.
  eexists.
  destruct (@C8_unknown_kind_embed reference_runtime board_renamed
              (str "updateBoard") _ eq_refl eq_refl eq_refl)
    as (Ht & Hd & Hc & member & user & Hm & Hu & Hf).
  vm_compute in Hm. injection Hm as <-.
  vm_compute in Hu. injection Hu as <-.
  split; [reflexivity |]. repeat split; assumption.
Defined.

(* ================================================================== *)
(** ** Properties of the signature check *)

(** The digests [hashlib] and [hmac] give, on one block, on several, and
    with a key longer than a block. *)
Example sha1_abc :
  hex (SHA1.sha1 (ascii_bytes "abc")) = lit "a9993e364706816aba3e25717850c26c9cd0d89d".
Proof. vm_compute. reflexivity. Qed.

Example sha1_empty :
  hex (SHA1.sha1 []) = lit "da39a3ee5e6b4b0d3255bfef95601890afd80709".
Proof. vm_compute. reflexivity. Qed.

Example hmac_sha1_fox :
  SHA1.hmac_hexdigest (ascii_bytes "key")
      (ascii_bytes "The quick brown fox jumps over the lazy dog")
    = lit "de7c9b85b8b78aa6bc8a7a36f70a90701c9db4d9".
Proof. vm_compute. reflexivity. Qed.

Example hmac_sha1_long_key :
  SHA1.hmac_hexdigest (repeat "k"%byte 100) (concat (repeat (ascii_bytes "hello") 30))
    = lit "b37be65e8cc077fd9ad8f1129ffe921f11baa6a2".
Proof. vm_compute. reflexivity. Qed.

Lemma hex_is_ascii (bs : bytes) : is_ascii (hex bs) = true.
Proof.
  induction bs as [| b bs IH]; [reflexivity |].
  change (hex (b :: bs))
    with ([hex_digit (Z_of_byte b / 16); hex_digit (Z_of_byte b mod 16)] ++ hex bs).
  unfold is_ascii in *.
  rewrite forallb_app, IH, andb_true_r. destruct b; reflexivity.
Qed.

Lemma sha1_length (msg : bytes) : length (SHA1.sha1 msg) = 20%nat.
Proof.
  unfold SHA1.sha1, SHA1.digest_Z. rewrite length_map.
  destruct (fold_left _ _ _) as [[[[h0 h1] h2] h3] h4]. reflexivity.
Qed.

Lemma hmac_hexdigest_length (key msg : bytes) :
  length (SHA1.hmac_hexdigest key msg) = 40%nat.
Proof.
  unfold SHA1.hmac_hexdigest, SHA1.hmac.
  set (m := _ ++ SHA1.sha1 _). pose proof (sha1_length m) as H.
  destruct (SHA1.sha1 m) as [| b0 l]; [discriminate |].
  do 19 (destruct l as [| ? l]; [discriminate |]).
  destruct l; [reflexivity | discriminate].
Qed.

Lemma str_eqb_eq (a b : pystr) : str_eqb a b = true <-> a = b.
Proof. unfold str_eqb. apply bool_decide_eq_true. Qed.

Section Verifier.

Variable cfg : Config.
Variable request : Request.

(** With a secret that encodes, a signature in ASCII and a body that is
    read, the check is the comparison with the HMAC of the body. *)
Lemma verify_ascii_signature (secret sig : pystr) (key body : bytes) :
  TRELLO_WEBHOOK_SECRET cfg = Some secret -> secret <> [] ->
  encode secret = Some key ->
  headers_get request (lit "X-Trello-Webhook") = Some sig ->
  is_ascii sig = true ->
  read request = Ok body ->
  verify_webhook_signature cfg request
    = Ok (str_eqb sig (SHA1.hmac_hexdigest key body)).
Proof.
  intros Hs Hne Hk Hh Ha Hb. unfold verify_webhook_signature.
  rewrite Hs, Hh. destruct secret as [| c secret]; [congruence |].
  destruct sig as [| s sig].
  - pose proof (hmac_hexdigest_length key body) as Hl.
    destruct (SHA1.hmac_hexdigest key body); [discriminate | reflexivity].
  - rewrite Hb. cbn [obind]. rewrite Hk. unfold compare_digest, SHA1.hmac_hexdigest.
    now rewrite Ha, hex_is_ascii.
Qed.

(** [verify(B, hmacHex(B, S), S)] is true. *)
Lemma verify_accepts_hmac (secret : pystr) (key body : bytes) :
  TRELLO_WEBHOOK_SECRET cfg = Some secret -> secret <> [] ->
  encode secret = Some key ->
  read request = Ok body ->
  headers_get request (lit "X-Trello-Webhook")
    = Some (SHA1.hmac_hexdigest key body) ->
  verify_webhook_signature cfg request = Ok true.
Proof.
  intros Hs Hne Hk Hb Hh.
  rewrite (verify_ascii_signature _ _ _ _ Hs Hne Hk Hh (hex_is_ascii _) Hb).
  f_equal. now apply str_eqb_eq.
Qed.

(** C3.  Without a secret every request verifies, whatever its body and
    its signature header; with a secret and without the header, none
    does. *)
Theorem C3_no_secret_or_no_signature :
  (TRELLO_WEBHOOK_SECRET cfg = None ->
     verify_webhook_signature cfg request = Ok true) /\
  (forall secret : pystr,
     TRELLO_WEBHOOK_SECRET cfg = Some secret -> secret <> [] ->
     headers_get request (lit "X-Trello-Webhook") = None ->
     verify_webhook_signature cfg request = Ok false).
Proof.
  unfold verify_webhook_signature. split.
  - now intros ->.
  - intros secret -> Hne ->. destruct secret; [congruence | reflexivity].
Qed.

End Verifier.

(* ================================================================== *)
(** ** Properties of the endpoint *)

Section Endpoint.

Context {rt : PyRuntime}.
Variable cfg : Config.
Variable bot : Bot.

#[local] Abbreviation channel_id := (DISCORD_CHANNEL_ID cfg).

Lemma send_discord_message_cases (action : pyval) :
  send_discord_message cfg bot action =
    match get_channel bot channel_id with
    | None => ([EvGetChannel channel_id; EvLog (ChannelNotFound channel_id)], Ok tt)
    | Some channel =>
        match create_embed action with
        | Raise x =>
            ([EvGetChannel channel_id; EvFormat action;
              EvLog (ErrorSendingMessage x)], Ok tt)
        | Ok e =>
            match send channel e with
            | Ok _ => ([EvGetChannel channel_id; EvFormat action; EvSend e], Ok tt)
            | Raise x =>
                ([EvGetChannel channel_id; EvFormat action; EvSend e;
                  EvLog (ErrorSendingMessage x)], Ok tt)
            end
        end
    end.
Proof.
  unfold send_discord_message.
  destruct (get_channel bot channel_id) as [channel |]; [| reflexivity].
  destruct (create_embed action) as [e | x]; [| reflexivity].
  cbn. destruct (send channel e) as [[] | x]; reflexivity.
Qed.

Lemma send_discord_message_returns (action : pyval) :
  result (send_discord_message cfg bot action) = Ok tt.
Proof.
  rewrite send_discord_message_cases.
  destruct (get_channel bot channel_id) as [channel |]; [| reflexivity].
  destruct (create_embed action) as [e | x]; [| reflexivity].
  destruct (send channel e); reflexivity.
Qed.

Lemma process_trello_event_cases (data : pyval) :
  process_trello_event cfg bot data =
    match Py.get data (lit "action") Py.empty_dict with
    | Raise x => ([EvLog (ErrorProcessingEvent x)], Ok tt)
    | Ok action =>
        match Py.get action (lit "type") PNone with
        | Raise x => ([EvLog (ErrorProcessingEvent x)], Ok tt)
        | Ok ty =>
            if Py.in_strs ty actionable then send_discord_message cfg bot action
            else ([], Ok tt)
        end
    end.
Proof.
  unfold process_trello_event.
  destruct (Py.get data _ _) as [action | x]; [| reflexivity].
  cbn [bind lift].
  destruct (Py.get action _ _) as [ty | x]; [| reflexivity].
  destruct (Py.in_strs ty actionable); [| reflexivity].
  pose proof (send_discord_message_returns action) as H.
  destruct (send_discord_message cfg bot action) as [tr r].
  cbn in H. subst r. reflexivity.
Qed.

Lemma process_trello_event_returns (data : pyval) :
  result (process_trello_event cfg bot data) = Ok tt.
Proof.
  rewrite process_trello_event_cases.
  destruct (Py.get data _ _) as [action | x]; [| reflexivity].
  destruct (Py.get action _ _) as [ty | x]; [| reflexivity].
  destruct (Py.in_strs ty actionable); [| reflexivity].
  apply send_discord_message_returns.
Qed.

(** Once verified and decoded, the answer is 200 and the run is the
    decoding followed by the run of [process_trello_event]. *)
Lemma handle_webhook_decoded (request : Request) (data : pyval) :
  verify_webhook_signature cfg request = Ok true ->
  json request = Ok data ->
  handle_webhook cfg bot request =
    (EvDecode :: events (process_trello_event cfg bot data),
     Ok (mk_response 200 (lit "OK"))).
Proof.
  intros Hv Hj. unfold handle_webhook. rewrite Hv, Hj.
  cbn [bind lift negb emit].
  pose proof (process_trello_event_returns data) as H.
  destruct (process_trello_event cfg bot data) as [tr r].
  cbn in H. subst r. cbn. now rewrite app_nil_r.
Qed.

End Endpoint.

(* ================================================================== *)
(** ** The endpoint against the specification *)

Section EndpointClaims.

Context {rt : PyRuntime}.
Variable cfg : Config.
Variable bot : Bot.

#[local] Abbreviation channel_id := (DISCORD_CHANNEL_ID cfg).

(** When the signature check answers false, the endpoint answers 401
    "Unauthorized" and its run is empty: nothing is decoded, formatted,
    looked up, sent or logged. *)
Lemma refused_request_stops (request : Request) :
  verify_webhook_signature cfg request = Ok false ->
  handle_webhook cfg bot request
    = ([], Ok (mk_response 401 (lit "Unauthorized"))).
Proof. intros Hv. unfold handle_webhook. now rewrite Hv. Qed.

(** C4.  A request whose signature is not the HMAC of its body is not
    always answered 401.  Under a secret, when the signature header holds a
    character outside ASCII, it is not the HMAC of the body, the comparison
    raises instead of answering false, and the endpoint logs the
    [TypeError] and answers 500 "Internal Server Error".  Nothing is
    decoded, formatted, looked up or sent on the way. *)
Theorem C4_invalid_signature_answered_500
        (request : Request) (secret sig : pystr) (key body : bytes) :
  TRELLO_WEBHOOK_SECRET cfg = Some secret -> secret <> [] ->
  encode secret = Some key ->
  headers_get request (lit "X-Trello-Webhook") = Some sig ->
  is_ascii sig = false ->
  read request = Ok body ->
  sig <> SHA1.hmac_hexdigest key body /\
  handle_webhook cfg bot request
    = ([EvLog (ErrorHandlingWebhook TypeError)],
       Ok (mk_response 500 (lit "Internal Server Error"))) /\
  result (handle_webhook cfg bot request)
    <> Ok (mk_response 401 (lit "Unauthorized")).
Proof.
  intros Hs Hne Hk Hh Ha Hb.
  assert (Hrun : handle_webhook cfg bot request
                 = ([EvLog (ErrorHandlingWebhook TypeError)],
                    Ok (mk_response 500 (lit "Internal Server Error")))).
  { unfold handle_webhook, verify_webhook_signature. rewrite Hs, Hh.
    destruct secret as [| c secret]; [congruence |].
    destruct sig as [| s sig]; [discriminate |].
    rewrite Hb. cbn [obind]. rewrite Hk. unfold compare_digest.
    now rewrite Ha. }
  split; [| split; [exact Hrun |]].
  - intros ->. unfold SHA1.hmac_hexdigest in Ha. rewrite hex_is_ascii in Ha.
    discriminate.
  - rewrite Hrun. cbn. discriminate.
Qed.

(** C5.  When the check passes and decoding the body raises, the endpoint
    answers 500 and its run is the decoding and one log line: the chat
    client is not called. *)
Theorem C5_undecodable_body (request : Request) (x : exn) :
  verify_webhook_signature cfg request = Ok true ->
  json request = Raise x ->
  handle_webhook cfg bot request
    = ([EvDecode; EvLog (ErrorHandlingWebhook x)],
       Ok (mk_response 500 (lit "Internal Server Error")))
  /\ sends (events (handle_webhook cfg bot request)) = []
  /\ ~ In (EvGetChannel channel_id) (events (handle_webhook cfg bot request)).
Proof.
  intros Hv Hj. unfold handle_webhook. rewrite Hv, Hj. cbn.
  repeat split. intros [H | [H | []]]; discriminate.
Qed.


(** C9.  Once the check has passed and the body is decoded, the answer is
    200 "OK" whatever the delivery does: a missing channel and a send that
    raises each leave a log line, and the answer is the same. *)
Theorem C9_ok_whatever_delivery_does (request : Request) (data : pyval) :
  verify_webhook_signature cfg request = Ok true ->
  json request = Ok data ->
  let run := handle_webhook cfg bot request in
  result run = Ok (mk_response 200 (lit "OK")) /\
  (get_channel bot channel_id = None ->
     In (EvGetChannel channel_id) (events run) ->
     In (EvLog (ChannelNotFound channel_id)) (events run) /\
     sends (events run) = []) /\
  (forall channel e x,
     get_channel bot channel_id = Some channel ->
     In (EvSend e) (events run) ->
     send channel e = Raise x ->
     In (EvLog (ErrorSendingMessage x)) (events run)).
Proof.
  intros Hv Hj run. subst run.
  rewrite (handle_webhook_decoded _ _ _ _ Hv Hj).
  split; [reflexivity |]. cbn [events fst].
  rewrite process_trello_event_cases.
  destruct (Py.get data _ _) as [action | y].
  2:{ split.
      - intros _ [H | [H | []]]; discriminate.
      - intros ? ? ? _ [H | [H | []]]; discriminate. }
  destruct (Py.get action _ _) as [ty | y].
  2:{ split.
      - intros _ [H | [H | []]]; discriminate.
      - intros ? ? ? _ [H | [H | []]]; discriminate. }
  destruct (Py.in_strs ty actionable).
  2:{ split.
      - intros _ [H | []]; discriminate.
      - intros ? ? ? _ [H | []]; discriminate. }
  rewrite send_discord_message_cases. split.
  - intros -> _. cbn. auto.
  - intros channel e x -> Hin Hs.
    destruct (create_embed action) as [e' | y].
    + assert (e' = e) as ->.
      { destruct (send channel e'); cbn in Hin;
          repeat (destruct Hin as [Hin | Hin]; try discriminate; try contradiction);
          congruence. }
      rewrite Hs. cbn. auto 10.
    + cbn in Hin.
      repeat (destruct Hin as [Hin | Hin]; try discriminate; try contradiction).
Qed.


End EndpointClaims.

(* ================================================================== *)
(** ** On sample requests *)

(** C2.  With the secret "s3cret" and a signature header that holds the
    character U+00E9, which is not the HMAC of the body, the check does not
    answer false as the specification has it: [hmac.compare_digest] raises
    [TypeError], and the endpoint answers 500 where an unverified request
    gets 401. *)
Theorem C2_non_ascii_signature_raises :
  verify_webhook_signature with_secret latin1_signed_full = Raise TypeError /\
  (exists key body,
     encode (lit "s3cret") = Some key /\
     read latin1_signed_full = Ok body /\
     [233%N] <> SHA1.hmac_hexdigest key body) /\
  @handle_webhook reference_runtime with_secret bot_ready latin1_signed_full
    = ([EvLog (ErrorHandlingWebhook TypeError)],
       Ok (mk_response 500 (lit "Internal Server Error"))).
Proof.
  split; [vm_compute; reflexivity |]. split; [| vm_compute; reflexivity].
  eexists _, _. split; [vm_compute; reflexivity |]. split; [reflexivity |].
  intros H. apply (f_equal (@length N)) in H.
  vm_compute in H. discriminate.
Qed.

Lemma C3_witness :
  verify_webhook_signature no_secret badly_signed_full = Ok true /\
  verify_webhook_signature with_secret unsigned_full
    = Ok false.
Proof.
  split.
  - apply (proj1 (C3_no_secret_or_no_signature no_secret badly_signed_full)).
    reflexivity.
  - apply (proj2 (C3_no_secret_or_no_signature with_secret
                    unsigned_full)
                 (lit "s3cret"));
      [reflexivity | intros H; vm_compute in H; discriminate | reflexivity].
Defined.

Lemma C4_witness :
  [233%N] <> sign full_body /\
  @handle_webhook reference_runtime with_secret bot_ready latin1_signed_full
    = ([EvLog (ErrorHandlingWebhook TypeError)],
       Ok (mk_response 500 (lit "Internal Server Error"))).
Proof.
  destruct (@C4_invalid_signature_answered_500 reference_runtime with_secret
              bot_ready latin1_signed_full (lit "s3cret") [233%N]
              (ascii_bytes "s3cret") full_body)
    as (Hne & Hrun & _);
    [reflexivity | vm_compute; discriminate | vm_compute; reflexivity
    | reflexivity | reflexivity | reflexivity |].
  split; [exact Hne | exact Hrun].
Defined.

Lemma C5_witness :
  let request := signed_garbage in
  @handle_webhook reference_runtime with_secret bot_ready request
    = ([EvDecode; EvLog (ErrorHandlingWebhook ValueError)],
       Ok (mk_response 500 (lit "Internal Server Error")))
  /\ sends (events (@handle_webhook reference_runtime with_secret bot_ready request)) = []
  /\ ~ In (EvGetChannel (DISCORD_CHANNEL_ID with_secret))
          (events (@handle_webhook reference_runtime with_secret bot_ready request)).
Proof.
  apply (@C5_undecodable_body reference_runtime with_secret bot_ready
           signed_garbage ValueError);
    vm_compute; reflexivity.
Defined.


Lemma C9_witness :
  let run := @handle_webhook reference_runtime with_secret bot_failing
               signed_full in
  result run = Ok (mk_response 200 (lit "OK")) /\
  In (EvLog (ErrorSendingMessage (OtherError 403))) (events run).
Proof.
  destruct (@C9_ok_whatever_delivery_does reference_runtime with_secret bot_failing
              signed_full
              (document full_createCard))
    as (H200 & _ & Hlog); [vm_compute; reflexivity | reflexivity |].
  split; [exact H200 |].
  eapply Hlog; [reflexivity | | reflexivity].
  vm_compute. right. right. right. left. reflexivity.
Defined.


(* ================================================================== *)
(** ** More on [create_embed] *)

Lemma parse_date_ok_inv `{PyRuntime} (date : pyval) (ts : datetime) :
  parse_date date = Ok ts ->
  exists d, date = PStr d /\ d <> [] /\
            fromisoformat (replace_char 90%N (lit "+00:00") d) = Some ts.
Proof.
  unfold parse_date. destruct date; try discriminate. cbn [Py.replace obind].
  destruct (fromisoformat _) as [t |] eqn:Hp; [| discriminate].
  intros [= <-]. exists s. repeat split; [| exact Hp].
  intros ->. cbn in Hp. rewrite fromisoformat_empty in Hp. discriminate.
Qed.

Lemma add_if_old_inv old key n v e e' :
  add_if_old old key n v e = Ok e' ->
  (Py.contains key old = Ok false /\ e' = e) \/
  (exists t, Py.contains key old = Ok true /\ v = Ok t /\ e' = add_field e n t false).
Proof.
  unfold add_if_old. intros H. bind_inv H. destruct a.
  - bind_inv H. injection H as <-. right. eauto.
  - injection H as <-. left. auto.
Qed.

Lemma add_field_fields e n v i :
  fields (add_field e n v i) = fields e ++ [mk_field n v i].
Proof. reflexivity. Qed.

Ltac bind_inv_as H x Hx :=
  apply obind_ok_inv in H; destruct H as (x & Hx & H).

Section FormatterMore.

Context {rt : PyRuntime}.

(** What a successful call of [create_embed] tells, branch by branch: the
    date parsed, the colour of the kind, the fields added before the
    member's, and the member's field last. *)
Lemma create_embed_ok_inv (action : pyval) (e : Embed) :
  create_embed action = Ok e ->
  exists (ty member date creator : pyval) (middle : list EmbedField),
    Py.get action (lit "type") PNone = Ok ty /\
    Py.get action (lit "memberCreator") Py.empty_dict = Ok member /\
    Py.get action (lit "date") (PStr []) = Ok date /\
    (exists ts, parse_date date = Ok ts /\ set_timestamp ts = Ok (timestamp e)) /\
    Py.get member (lit "fullName") unknown = Ok creator /\
    color e = kind_color (classify_spec ty) /\
    fields e = middle ++ [mk_field (kind_byline (classify_spec ty)) [Fmt creator] true] /\
    match classify_spec ty with
    | CardCreated | CardCommented => length middle = 1%nat
    | CardDeleted | Unknown => middle = []
    | CardUpdated => (length middle <= 3)%nat
    end.
Proof.
  intros H. unfold create_embed in H.
  bind_inv_as H ty Hty. bind_inv_as H member Hmem. bind_inv_as H date Hdate.
  exists ty, member, date.
  destruct ty; cbn [Py.eq_str classify_spec] in *;
    repeat (match goal with
            | _ : context [if str_eqb ?s ?c then _ else _] |- _ =>
                destruct (str_eqb s c)
            end);
    repeat (match goal with
            | H : obind _ _ = Ok _ |- _ => bind_inv H
            end);
    injection H as <-;
    repeat (match goal with
            | H : add_if_old _ _ _ _ _ = Ok _ |- _ =>
                apply add_if_old_inv in H as [(_ & ->) | (? & _ & _ & ->)]
            end);
    repeat (match goal with
            | H : card_embed _ _ _ _ = Ok _ |- _ =>
                apply card_embed_ok_inv in H as (_ & ? & ? & ?)
            | H : discord_Embed _ _ _ _ = Ok _ |- _ =>
                apply discord_Embed_ok_inv in H as (_ & _ & ? & ? & ?)
            end);
    match goal with
    | Hc : Py.get member (lit "fullName") unknown = Ok ?c |- _ => exists c
    end;
    eexists;
    (split; [assumption |]); (split; [assumption |]); (split; [assumption |]);
    (split; [cbn [timestamp add_field]; assumption || eauto |]);
    (split; [assumption |]);
    (split; [cbn [color add_field kind_color]; assumption || reflexivity |]);
    cbn [fields add_field kind_byline];
    repeat (match goal with
            | Hf : fields _ = [] |- _ => rewrite Hf
            end);
    (split; [reflexivity |]); cbn; try reflexivity; lia.
Qed.


(** X1.  [create_embed] builds an embed only from an object whose
    [memberCreator], if there, is an object and whose [date] is there, is a
    non-empty string and parses.  The timestamp of the embed is that date
    parsed when it carries an offset; when it carries none, it is what
    [astimezone] made of it, which did not raise. *)
Theorem X1_embed_requires (action : pyval) (e : Embed) :
  create_embed action = Ok e ->
  exists (a m : gmap (list N) pyval) (d : pystr) (ts : datetime),
    action = PDict a /\
    default Py.empty_dict (a !! lit "memberCreator") = PDict m /\
    a !! lit "date" = Some (PStr d) /\ d <> [] /\
    fromisoformat (replace_char 90%N (lit "+00:00") d) = Some ts /\
    match utcoffset ts with
    | Some _ => timestamp e = ts
    | None => astimezone (clock ts) = Ok (timestamp e)
    end.
Proof.
  intros H.
  apply create_embed_ok_inv in H
    as (ty & member & date & creator & middle & Hty & Hmem & Hdate
        & (ts & Hp & Hst) & Hc & _).
  destruct (get_ok_dict _ _ _ _ Hty) as (a & ->).
  destruct (get_ok_dict _ _ _ _ Hc) as (m & ->).
  apply parse_date_ok_inv in Hp as (d & -> & Hne & Hp).
  rewrite get_dict in Hmem, Hdate. injection Hmem as Hmem. injection Hdate as Hdate.
  exists a, m, d, ts. repeat split; try assumption.
  - destruct (a !! lit "date") as [v |]; cbn in Hdate; congruence.
  - unfold set_timestamp in Hst. destruct (utcoffset ts); congruence.
Qed.

(** X2.  Every embed [create_embed] builds has the colour of its kind and
    ends with the member's field, inline, under the name of its kind; it has
    two fields for a new card and for a comment, one for a deleted card and
    for an unrecognised tag, and from one to four for an updated card. *)
Theorem X2_fields_shape (action ty : pyval) (e : Embed) :
  Py.get action (lit "type") PNone = Ok ty ->
  create_embed action = Ok e ->
  color e = kind_color (classify_spec ty) /\
  (exists member creator,
     Py.get action (lit "memberCreator") Py.empty_dict = Ok member /\
     Py.get member (lit "fullName") unknown = Ok creator /\
     last (fields e)
       = Some (mk_field (kind_byline (classify_spec ty)) [Fmt creator] true)) /\
  match classify_spec ty with
  | CardCreated | CardCommented => length (fields e) = 2%nat
  | CardDeleted | Unknown => length (fields e) = 1%nat
  | CardUpdated => (1 <= length (fields e) <= 4)%nat
  end.
Proof.
  intros Hty H.
  apply create_embed_ok_inv in H
    as (ty' & member & date & creator & middle & Hty' & Hmem & _ & _ & Hc & Hcol & Hf & Hn).
  assert (ty' = ty) as -> by congruence.
  split; [exact Hcol |]. split.
  - exists member, creator. repeat split; try assumption.
    rewrite Hf. apply last_snoc.
  - rewrite Hf, length_app. cbn [length].
    destruct (classify_spec ty); try rewrite Hn; cbn; lia.
Qed.

(** X3.  The embed [create_embed] builds for an updated card whose old
    values are an object: the title, the name of the card in bold, orange,
    and the fields, in this order: "Name Changed" when the old values have
    a name (from the old name to the new one, read without default), then
    "Description Updated" when they have a description, then "Position
    Changed" when they have a position, then "Updated by". *)
Theorem X3_updateCard_embed
        (action card member card_name new_name updater : pyval)
        (old : gmap (list N) pyval) (e : Embed) :
  Py.get action (lit "type") PNone = Ok (str "updateCard") ->
  Py.get action (lit "memberCreator") Py.empty_dict = Ok member ->
  data_get action (lit "card") Py.empty_dict = Ok card ->
  data_get action (lit "old") Py.empty_dict = Ok (PDict old) ->
  Py.get card (lit "name") unknown = Ok card_name ->
  Py.get card (lit "name") PNone = Ok new_name ->
  Py.get member (lit "fullName") unknown = Ok updater ->
  create_embed action = Ok e ->
  title e = 0x1F4DD%N :: lit " Card Updated" /\
  description e = [Lit (lit "**"); Fmt card_name; Lit (lit "**")] /\
  color e = 0xffaa00 /\
  fields e =
    match old !! lit "name" with
    | Some old_name =>
        [mk_field (lit "Name Changed")
           [Lit (lit "From: "); Fmt old_name;
            Lit (10%N :: lit "To: "); Fmt new_name] false]
    | None => []
    end
    ++ old_field old (lit "desc") (lit "Description Updated")
         [Lit (lit "Description was modified")]
    ++ old_field old (lit "pos") (lit "Position Changed")
         [Lit (lit "Card was moved")]
    ++ [mk_field (lit "Updated by") [Fmt updater] true].
Proof.
  intros Hty Hm Hc Ho Hcn Hnn Hu He.
  unfold create_embed in He. rewrite Hty, Hm in He. cbn [obind] in He.
  bind_inv_as He date Hd.
  change (Py.eq_str (str "updateCard") (lit "createCard")) with false in He.
  change (Py.eq_str (str "updateCard") (lit "updateCard")) with true in He.
  cbn iota in He. rewrite Hc, Ho in He. cbn [obind] in He.
  bind_inv_as He e0 He0.
  unfold card_embed in He0. rewrite Hcn in He0. cbn [obind] in He0.
  bind_inv_as He0 ts Hts.
  apply discord_Embed_ok_inv in He0 as (Ht & Hdesc & Hcol & Hf & _).
  unfold add_if_old, old_field in *.
  cbn [Py.contains Py.getitem obind] in He. rewrite Hnn, Hu in He.
  destruct (old !! lit "name"), (old !! lit "desc"), (old !! lit "pos");
    cbn in He; injection He as <-;
    cbn [title description color fields add_field];
    rewrite Ht, Hdesc, Hcol, Hf; repeat split.
Qed.

(** X4.  The embed [create_embed] builds for a deleted card: the title,
    the name of the card in bold, red, and the one field "Deleted by". *)
Theorem X4_deleteCard_embed
        (action card member card_name deleter : pyval) (e : Embed) :
  Py.get action (lit "type") PNone = Ok (str "deleteCard") ->
  Py.get action (lit "memberCreator") Py.empty_dict = Ok member ->
  data_get action (lit "card") Py.empty_dict = Ok card ->
  Py.get card (lit "name") unknown = Ok card_name ->
  Py.get member (lit "fullName") unknown = Ok deleter ->
  create_embed action = Ok e ->
  title e = [0x1F5D1; 0xFE0F]%N ++ lit " Card Deleted" /\
  description e = [Lit (lit "**"); Fmt card_name; Lit (lit "**")] /\
  color e = 0xff0000 /\
  fields e = [mk_field (lit "Deleted by") [Fmt deleter] true].
Proof.
  intros Hty Hm Hc Hcn Hu He.
  unfold create_embed in He. rewrite Hty, Hm in He. cbn [obind] in He.
  bind_inv_as He date Hd.
  change (Py.eq_str (str "deleteCard") (lit "createCard")) with false in He.
  change (Py.eq_str (str "deleteCard") (lit "updateCard")) with false in He.
  change (Py.eq_str (str "deleteCard") (lit "deleteCard")) with true in He.
  cbn iota in He. rewrite Hc in He. cbn [obind] in He.
  bind_inv_as He e0 He0. rewrite Hu in He. injection He as <-.
  unfold card_embed in He0. rewrite Hcn in He0. cbn [obind] in He0.
  bind_inv_as He0 ts Hts.
  apply discord_Embed_ok_inv in He0 as (Ht & Hdesc & Hcol & Hf & _).
  cbn [title description color fields add_field].
  rewrite Ht, Hdesc, Hcol, Hf. repeat split.
Qed.

(** X7.  For the four card tags, a [data] that is there and is no object
    (a JSON null, say), or a [card] in it that is no object, makes
    [create_embed] raise [AttributeError]: the defaults stand in for an
    absent key only. *)
Theorem X7_non_object_data (a : gmap (list N) pyval) (ty : pyval) :
  a !! lit "type" = Some ty ->
  classify_spec ty <> Unknown ->
  (exists v, a !! lit "data" = Some v /\ is_dict v = false) \/
  (exists dd c, a !! lit "data" = Some (PDict dd) /\
                dd !! lit "card" = Some c /\ is_dict c = false) ->
  create_embed (PDict a) = Raise AttributeError.
Proof.
  intros Hty Hk Hbad. unfold create_embed, data_get, card_embed.
  rewrite !get_dict, Hty. cbn [default from_option id obind].
  destruct ty as [| | | | s | |]; try (exfalso; apply Hk; reflexivity).
  cbn [classify_spec Py.eq_str] in *.
  destruct Hbad as [(v & -> & Hv) | (dd & c & -> & Hc & Hv)].
  - repeat (destruct (str_eqb s _); [destruct v; try discriminate; reflexivity |]).
    exfalso. apply Hk. reflexivity.
  - cbn [default from_option id Py.get obind]. rewrite Hc.
    cbn [default from_option id].
    repeat (destruct (str_eqb s _); [destruct c; try discriminate; reflexivity |]).
    exfalso. apply Hk. reflexivity.
Qed.

End FormatterMore.

(** X5.  The value of the "Comment" field, [text[:1000] + "..." if
    len(text) > 1000 else text]: on a string it is a string of at most 1003
    characters that starts as the text does, and the text itself up to 1000
    characters; otherwise it is the text itself, a list or an object of at
    most 1000 entries.  A number, a boolean, a null, and a list or an object
    of more than 1000 entries raise. *)
Theorem X5_comment_value (text v : pyval) :
  comment_value text = Ok v ->
  (exists s s', text = PStr s /\ v = PStr s' /\
                (length s' <= 1003)%nat /\
                firstn 1000 s' = firstn 1000 s /\
                ((length s <= 1000)%nat -> s' = s)) \/
  (v = text /\
   ((exists l, text = PList l /\ (length l <= 1000)%nat) \/
    (exists d, text = PDict d /\ (size d <= 1000)%nat))).
Proof.
  unfold comment_value. destruct text; try discriminate; cbn [Py.len obind].
  - destruct (Nat.ltb_spec 1000 (length s)) as [Hl | Hl];
      cbn [Py.slice_to Py.add_str obind]; intros [= <-]; left.
    + exists s, (PyStr.slice_to 1000 s ++ lit "..."). unfold PyStr.slice_to.
      repeat split.
      * rewrite length_app, length_firstn. change (length (lit "...")) with 3%nat. lia.
      * rewrite firstn_app, length_firstn, firstn_firstn.
        replace (1000 - Nat.min 1000 (length s))%nat with 0%nat by lia.
        replace (Nat.min 1000 1000) with 1000%nat by lia.
        cbn [firstn]. now rewrite app_nil_r.
      * lia.
    + exists s, s. repeat split. lia.
  - destruct (Nat.ltb_spec 1000 (length items)) as [Hl | Hl];
      cbn [Py.slice_to Py.add_str obind]; [discriminate |].
    intros [= <-]. right. split; [reflexivity |]. left. eauto.
  - destruct (Nat.ltb_spec 1000 (size d)) as [Hl | Hl];
      cbn [Py.slice_to Py.add_str obind]; [discriminate |].
    intros [= <-]. right. split; [reflexivity |]. right. eauto.
Qed.

Lemma replace_char_app old new (s t : pystr) :
  replace_char old new (s ++ t) = replace_char old new s ++ replace_char old new t.
Proof. apply flat_map_app. Qed.

Lemma replace_char_absent old new (s : pystr) :
  ~ In old s -> replace_char old new s = s.
Proof.
  induction s as [| c s IH]; [reflexivity |]. intros Hn.
  change (replace_char old new (c :: s))
    with ((if (c =? old)%N then new else [c]) ++ replace_char old new s).
  destruct (N.eqb_spec c old) as [-> | _].
  - exfalso. apply Hn. now left.
  - rewrite IH; [reflexivity |]. intros Hin. apply Hn. now right.
Qed.

Lemma replace_char_clears old new (s : pystr) :
  ~ In old new -> ~ In old (replace_char old new s).
Proof.
  intros Hnew. induction s as [| c s IH]; [intros [] |].
  change (replace_char old new (c :: s))
    with ((if (c =? old)%N then new else [c]) ++ replace_char old new s).
  rewrite in_app_iff. intros [Hin | Hin]; [| now apply IH].
  destruct (N.eqb_spec c old) as [-> | Hne]; [now apply Hnew |].
  destruct Hin as [-> | []]. now apply Hne.
Qed.

Section DateMore.

Context {rt : PyRuntime}.

(** X6.  How the date reaches [datetime.fromisoformat]: with every Z
    replaced by +00:00.  A date without Z is parsed as it is; a date that
    ends with Z is parsed as the same date ending with +00:00; and the
    string parsed holds no Z, so that replacing twice changes nothing. *)
Theorem X6_date_Z_replaced :
  (forall d : pystr, ~ In 90%N d ->
     parse_date (PStr d)
       = match fromisoformat d with Some t => Ok t | None => Raise ValueError end) /\
  (forall p : pystr,
     parse_date (PStr (p ++ [90%N])) = parse_date (PStr (p ++ lit "+00:00"))) /\
  (forall d : pystr,
     ~ In 90%N (replace_char 90%N (lit "+00:00") d) /\
     parse_date (PStr (replace_char 90%N (lit "+00:00") d)) = parse_date (PStr d)).
Proof.
  assert (Hnew : ~ In 90%N (lit "+00:00")).
  { vm_compute. intuition discriminate. }
  unfold parse_date. cbn [Py.replace obind]. split; [| split].
  - intros d Hd. now rewrite replace_char_absent.
  - intros p. rewrite !replace_char_app.
    now rewrite (replace_char_absent _ _ (lit "+00:00")).
  - intros d. split; [now apply replace_char_clears |].
    rewrite (replace_char_absent _ _ (replace_char _ _ d)); [reflexivity |].
    now apply replace_char_clears.
Qed.

End DateMore.

(* ================================================================== *)
(** ** More on the signature check *)

Lemma hex_is_lower_hex (bs : bytes) : forallb is_lower_hex (hex bs) = true.
Proof.
  induction bs as [| b bs IH]; [reflexivity |].
  change (hex (b :: bs))
    with ([hex_digit (Z_of_byte b / 16); hex_digit (Z_of_byte b mod 16)] ++ hex bs).
  rewrite forallb_app, IH, andb_true_r. destruct b; reflexivity.
Qed.

Section VerifierMore.

Variable cfg : Config.
Variable request : Request.

(** X8.  With a secret that encodes, a signature header in ASCII and a
    body that is read, the check is true exactly when the header is the hex
    HMAC-SHA1 of the body under the secret, and false for any other header
    in ASCII. *)
Theorem X8_verify_ascii (secret sig : pystr) (key body : bytes) :
  TRELLO_WEBHOOK_SECRET cfg = Some secret -> secret <> [] ->
  encode secret = Some key ->
  headers_get request (lit "X-Trello-Webhook") = Some sig ->
  is_ascii sig = true ->
  read request = Ok body ->
  (verify_webhook_signature cfg request = Ok true
     <-> sig = SHA1.hmac_hexdigest key body) /\
  (sig <> SHA1.hmac_hexdigest key body ->
     verify_webhook_signature cfg request = Ok false).
Proof.
  intros Hs Hne Hk Hh Ha Hb.
  rewrite (verify_ascii_signature _ _ _ _ _ _ Hs Hne Hk Hh Ha Hb).
  destruct (str_eqb sig _) eqn:He.
  - apply str_eqb_eq in He. split; [tauto | congruence].
  - assert (sig <> SHA1.hmac_hexdigest key body).
    { intros Heq. apply str_eqb_eq in Heq. congruence. }
    split; [split; [discriminate | tauto] | reflexivity].
Qed.

(** X9.  With a secret set, the check is true only when the body was read
    and the header is its hex HMAC-SHA1: 40 characters, each a digit or a
    letter from a to f.  A header of another length or with a capital
    letter, so a digest in base64 or in capitals, is never accepted. *)
Theorem X9_accepts_only_hex_hmac (secret : pystr) :
  TRELLO_WEBHOOK_SECRET cfg = Some secret -> secret <> [] ->
  verify_webhook_signature cfg request = Ok true ->
  exists (sig : pystr) (key body : bytes),
    headers_get request (lit "X-Trello-Webhook") = Some sig /\
    encode secret = Some key /\
    read request = Ok body /\
    sig = SHA1.hmac_hexdigest key body /\
    length sig = 40%nat /\
    forallb is_lower_hex sig = true.
Proof.
  intros Hs Hne. unfold verify_webhook_signature. rewrite Hs.
  destruct secret as [| c secret]; [congruence |].
  destruct (headers_get request _) as [[| s sig] |]; try discriminate.
  destruct (read request) as [body | y]; [| discriminate]. cbn [obind].
  destruct (encode (c :: secret)) as [key |]; [| discriminate].
  unfold compare_digest. destruct (is_ascii (s :: sig) && _); [| discriminate].
  intros [= He]. apply str_eqb_eq in He. exists (s :: sig), key, body.
  repeat split; try assumption.
  - rewrite He. apply hmac_hexdigest_length.
  - rewrite He. apply hex_is_lower_hex.
Qed.

(** X10.  The check raises in three cases only, all with a secret set and
    a non-empty signature header: reading the body raises, and the
    exception is let through; the body is read and the secret does not
    encode to UTF-8 ([UnicodeEncodeError]); the body is read, the secret
    encodes and the header holds a character outside ASCII
    ([TypeError]). *)
Theorem X10_verify_raises (x : exn) :
  verify_webhook_signature cfg request = Raise x <->
  exists secret sig : pystr,
    TRELLO_WEBHOOK_SECRET cfg = Some secret /\ secret <> [] /\
    headers_get request (lit "X-Trello-Webhook") = Some sig /\ sig <> [] /\
    (read request = Raise x \/
     (exists body : bytes, read request = Ok body) /\
     ((encode secret = None /\ x = UnicodeEncodeError) \/
      (is_Some (encode secret) /\ is_ascii sig = false /\ x = TypeError))).
Proof.
  unfold verify_webhook_signature. split.
  - destruct (TRELLO_WEBHOOK_SECRET cfg) as [[| c secret] |]; try discriminate.
    destruct (headers_get request _) as [[| s sig] |]; try discriminate.
    intros H. exists (c :: secret), (s :: sig).
    do 4 (split; [reflexivity || discriminate |]).
    destruct (read request) as [body | y]; cbn [obind] in H;
      [| left; injection H as <-; reflexivity].
    right. split; [eauto |].
    destruct (encode (c :: secret)) as [key |].
    + right. unfold compare_digest, SHA1.hmac_hexdigest in H.
      rewrite hex_is_ascii, andb_true_r in H.
      destruct (is_ascii (s :: sig)); [discriminate |].
      injection H as <-. eauto.
    + left. injection H as <-. auto.
  - intros (secret & sig & -> & Hne & -> & Hsig & H).
    destruct secret as [| c secret]; [congruence |].
    destruct sig as [| s sig]; [congruence |].
    destruct H as [-> | ((body & ->) & H)]; [reflexivity |]. cbn [obind].
    destruct H as [(-> & ->) | ((key & ->) & Ha & ->)]; [reflexivity |].
    unfold compare_digest. now rewrite Ha.
Qed.

(** X11.  The empty string counts as nothing, for the secret and for the
    header: a secret set to the empty string lets every request through, and
    under a secret an empty signature header is refused before anything is
    computed, whatever the secret. *)
Theorem X11_empty_strings :
  (TRELLO_WEBHOOK_SECRET cfg = Some [] ->
     verify_webhook_signature cfg request = Ok true) /\
  (forall secret : pystr,
     TRELLO_WEBHOOK_SECRET cfg = Some secret -> secret <> [] ->
     headers_get request (lit "X-Trello-Webhook") = Some [] ->
     verify_webhook_signature cfg request = Ok false).
Proof.
  unfold verify_webhook_signature. split.
  - now intros ->.
  - intros secret -> Hne ->. destruct secret; [congruence | reflexivity].
Qed.

End VerifierMore.

(* ================================================================== *)
(** ** More on the endpoint *)

Section EndpointMore.

Context {rt : PyRuntime}.
Variable cfg : Config.
Variable bot : Bot.

#[local] Abbreviation channel_id := (DISCORD_CHANNEL_ID cfg).

Lemma handle_webhook_cases (request : Request) :
  handle_webhook cfg bot request =
    match verify_webhook_signature cfg request with
    | Raise x =>
        ([EvLog (ErrorHandlingWebhook x)],
         Ok (mk_response 500 (lit "Internal Server Error")))
    | Ok false => ([], Ok (mk_response 401 (lit "Unauthorized")))
    | Ok true =>
        match json request with
        | Raise x =>
            ([EvDecode; EvLog (ErrorHandlingWebhook x)],
             Ok (mk_response 500 (lit "Internal Server Error")))
        | Ok data =>
            (EvDecode :: events (process_trello_event cfg bot data),
             Ok (mk_response 200 (lit "OK")))
        end
    end.
Proof.
  destruct (verify_webhook_signature cfg request) as [[|] | x] eqn:Hv.
  - destruct (json request) as [data | x] eqn:Hj.
    + now apply handle_webhook_decoded.
    + unfold handle_webhook. now rewrite Hv, Hj.
  - unfold handle_webhook. now rewrite Hv.
  - unfold handle_webhook. now rewrite Hv.
Qed.

(** The run of [process_trello_event], case by case. *)
Lemma process_events_cases (data : pyval) :
  let tr := events (process_trello_event cfg bot data) in
  (tr = [] /\
   exists action ty, Py.get data (lit "action") Py.empty_dict = Ok action /\
                     Py.get action (lit "type") PNone = Ok ty /\
                     Py.in_strs ty actionable = false) \/
  (exists x, tr = [EvLog (ErrorProcessingEvent x)]) \/
  (exists action ty,
     Py.get data (lit "action") Py.empty_dict = Ok action /\
     Py.get action (lit "type") PNone = Ok ty /\
     Py.in_strs ty actionable = true /\
     ((get_channel bot channel_id = None /\
       tr = [EvGetChannel channel_id; EvLog (ChannelNotFound channel_id)]) \/
      (exists channel,
         get_channel bot channel_id = Some channel /\
         ((exists x, create_embed action = Raise x /\
                     tr = [EvGetChannel channel_id; EvFormat action;
                           EvLog (ErrorSendingMessage x)]) \/
          (exists e, create_embed action = Ok e /\
                     ((send channel e = Ok tt /\
                       tr = [EvGetChannel channel_id; EvFormat action; EvSend e]) \/
                      (exists x, send channel e = Raise x /\
                                 tr = [EvGetChannel channel_id; EvFormat action;
                                       EvSend e; EvLog (ErrorSendingMessage x)]))))))).
Proof.
  cbn zeta. rewrite process_trello_event_cases.
  destruct (Py.get data _ _) as [action | x]; [| right; left; cbn; eauto].
  destruct (Py.get action _ _) as [ty | x] eqn:Hty; [| right; left; cbn; eauto].
  destruct (Py.in_strs ty actionable) eqn:Hact; [| left; cbn; eauto 7].
  right. right. exists action, ty. do 3 (split; [reflexivity || assumption |]).
  rewrite send_discord_message_cases.
  destruct (get_channel bot channel_id) as [channel |]; [| left; auto].
  right. exists channel. split; [reflexivity |].
  destruct (create_embed action) as [e | x]; [| left; cbn; eauto].
  right. exists e. split; [reflexivity |].
  destruct (send channel e) as [[] | x]; cbn; eauto.
Qed.

(** X12.  The endpoint always answers, with one of three responses, and
    which one is decided by the check and the decoding alone: 401 when the
    check is false, 500 when the check or the decoding raises, 200 in all
    other cases, whatever the document holds and the chat client does. *)
Theorem X12_response_table (request : Request) :
  result (handle_webhook cfg bot request) =
    match verify_webhook_signature cfg request, json request with
    | Ok false, _ => Ok (mk_response 401 (lit "Unauthorized"))
    | Ok true, Ok _ => Ok (mk_response 200 (lit "OK"))
    | Ok true, Raise _ | Raise _, _ =>
        Ok (mk_response 500 (lit "Internal Server Error"))
    end.
Proof.
  rewrite handle_webhook_cases.
  destruct (verify_webhook_signature cfg request) as [[|] | x];
    destruct (json request); reflexivity.
Qed.


(** X14.  An embed is sent only for a request that passed the check, whose
    body decoded to an object with an action of one of the four tags, when
    the channel exists; and the embed sent is the one [create_embed] built
    from that action. *)
Theorem X14_send_is_earned (request : Request) (e : Embed) :
  In (EvSend e) (events (handle_webhook cfg bot request)) ->
  verify_webhook_signature cfg request = Ok true /\
  exists data action ty channel,
    json request = Ok data /\
    Py.get data (lit "action") Py.empty_dict = Ok action /\
    Py.get action (lit "type") PNone = Ok ty /\
    Py.in_strs ty actionable = true /\
    get_channel bot channel_id = Some channel /\
    create_embed action = Ok e.
Proof.
  rewrite handle_webhook_cases.
  destruct (verify_webhook_signature cfg request) as [[|] | x].
  2:{ intros []. }
  2:{ intros [H | []]; discriminate. }
  destruct (json request) as [data | x].
  2:{ intros [H | [H | []]]; discriminate. }
  cbn [events fst]. intros [H | Hin]; [discriminate |].
  split; [reflexivity |].
  destruct (process_events_cases data)
    as [(Htr & _) | [(x & Htr) | (action & ty & Ha & Hty & Hact & H)]].
  - rewrite Htr in Hin. destruct Hin.
  - rewrite Htr in Hin. destruct Hin as [H | []]. discriminate.
  - exists data, action, ty.
    destruct H as [(_ & Htr) | (channel & Hch & [(x & _ & Htr) | (e' & He & [(_ & Htr) | (x & _ & Htr)])])];
      rewrite Htr in Hin; cbn in Hin;
      repeat (destruct Hin as [Hin | Hin]; try discriminate; try contradiction);
      injection Hin as <-; exists channel; auto 10.
Qed.

(** X15.  The run that delivers: the check passes, the body decodes to an
    object with an action of one of the four tags, the channel exists,
    [create_embed] builds an embed and the send completes.  The steps are
    then the decoding, the channel lookup, the formatting and that send,
    nothing is logged, and the answer is 200 "OK". *)
Theorem X15_delivery (request : Request) (data action ty : pyval)
        (channel : Channel) (e : Embed) :
  verify_webhook_signature cfg request = Ok true ->
  json request = Ok data ->
  Py.get data (lit "action") Py.empty_dict = Ok action ->
  Py.get action (lit "type") PNone = Ok ty ->
  Py.in_strs ty actionable = true ->
  get_channel bot channel_id = Some channel ->
  create_embed action = Ok e ->
  send channel e = Ok tt ->
  handle_webhook cfg bot request
    = ([EvDecode; EvGetChannel channel_id; EvFormat action; EvSend e],
       Ok (mk_response 200 (lit "OK"))).
Proof.
  intros Hv Hj Ha Hty Hact Hch He Hs.
  rewrite handle_webhook_cases, Hv, Hj, process_trello_event_cases, Ha, Hty, Hact.
  now rewrite send_discord_message_cases, Hch, He, Hs.
Qed.

(** X16.  A verified body that decodes to something else than an object
    (an array, a string, a number, a null), or to an object whose [action]
    is there and is no object: [process_trello_event] catches the
    [AttributeError], logs it, and the answer is 200 "OK" with nothing
    looked up, formatted or sent. *)
Theorem X16_non_object_document (request : Request) (data : pyval) :
  verify_webhook_signature cfg request = Ok true ->
  json request = Ok data ->
  is_dict data = false \/
  (exists d v, data = PDict d /\ d !! lit "action" = Some v /\ is_dict v = false) ->
  handle_webhook cfg bot request
    = ([EvDecode; EvLog (ErrorProcessingEvent AttributeError)],
       Ok (mk_response 200 (lit "OK"))).
Proof.
  intros Hv Hj Hbad.
  rewrite handle_webhook_cases, Hv, Hj, process_trello_event_cases.
  destruct Hbad as [Hd | (d & v & -> & Hv' & Hd)].
  - destruct data; try discriminate; reflexivity.
  - rewrite get_dict, Hv'. cbn [default from_option id].
    destruct v; try discriminate; reflexivity.
Qed.

(** X17.  When no channel is found under the configured id, an action of
    one of the four tags is dropped with the line "Channel ... not found":
    the formatter is not called, so the content of the action does not
    matter, and the answer is 200 "OK". *)
Theorem X17_missing_channel (request : Request) (data action ty : pyval) :
  verify_webhook_signature cfg request = Ok true ->
  json request = Ok data ->
  Py.get data (lit "action") Py.empty_dict = Ok action ->
  Py.get action (lit "type") PNone = Ok ty ->
  Py.in_strs ty actionable = true ->
  get_channel bot channel_id = None ->
  handle_webhook cfg bot request
    = ([EvDecode; EvGetChannel channel_id; EvLog (ChannelNotFound channel_id)],
       Ok (mk_response 200 (lit "OK"))).
Proof.
  intros Hv Hj Ha Hty Hact Hch.
  rewrite handle_webhook_cases, Hv, Hj, process_trello_event_cases, Ha, Hty, Hact.
  now rewrite send_discord_message_cases, Hch.
Qed.

End EndpointMore.

(* ================================================================== *)
(** ** The administrative commands *)

Lemma replies_app (a b : list cmd_event) : replies (a ++ b) = replies a ++ replies b.
Proof.
  induction a as [| ev a IH]; [reflexivity |].
  destruct ev; cbn; now rewrite IH.
Qed.

Lemma calls_app (a b : list cmd_event) : calls (a ++ b) = calls a ++ calls b.
Proof.
  induction a as [| ev a IH]; [reflexivity |].
  destruct ev; cbn; now rewrite IH.
Qed.

Lemma say_run (ctx : CommandCtx) (r : reply) :
  say ctx r = ([CmdReply r], ctx_send ctx r).
Proof. reflexivity. Qed.

(** What the [except] clause makes of a body that replied once or raised:
    one reply that went through; or a reply that raised, followed by the
    error reply for it; or the error reply alone. *)
Lemma guarded_run (ctx : CommandCtx) (body : W cmd_event unit) :
  replied_once ctx body ->
  let run := wtry body (fun e => say ctx (error_reply e)) in
  (exists r, replies (fst run) = [r] /\ ctx_send ctx r = Ok tt /\ snd run = Ok tt) \/
  (exists r x, replies (fst run) = [r; error_reply x] /\
               ctx_send ctx r = Raise x /\
               snd run = ctx_send ctx (error_reply x)) \/
  (exists x, replies (fst run) = [error_reply x] /\
             replies (fst body) = [] /\ snd body = Raise x /\
             snd run = ctx_send ctx (error_reply x)).
Proof.
  intros [(r & Hr & Hres) | (Hr & x & Hres)]; destruct body as [tr res];
    cbn [fst snd] in *; subst res; cbn zeta; unfold wtry.
  - destruct (ctx_send ctx r) as [[] | x] eqn:Hs.
    + left. exists r. cbn. auto.
    + right. left. exists r, x. rewrite say_run. cbn [fst snd].
      rewrite replies_app, Hr. auto.
  - right. right. exists x. rewrite say_run. cbn [fst snd].
    rewrite replies_app, Hr. auto.
Qed.

Section CommandsMore.

Variable api : ApiConfig.
Variable cfg : Config.
Variable session : Session.
Variable client : ChatClient.
Variable ctx : CommandCtx.

Lemma setup_webhook_cases (board_id : pystr) :
  setup_webhook api session ctx board_id
    = wtry (setup_body api session ctx board_id) (fun e => say ctx (error_reply e)).
Proof.
  unfold setup_webhook, setup_body, call, read_json, say, setup_call. f_equal.
  destruct (perform session _) as [response | x]; [| reflexivity].
  cbn. destruct (http_status response =? 200); [| reflexivity].
  cbn. destruct (http_json response) as [result | x]; [| reflexivity].
  cbn. destruct (Py.getitem result _) as [id | x]; reflexivity.
Qed.

Lemma list_webhooks_cases :
  list_webhooks api session ctx
    = wtry (list_body api session ctx) (fun e => say ctx (error_reply e)).
Proof.
  unfold list_webhooks, list_body, call, read_json, say, list_call. f_equal.
  destruct (perform session _) as [response | x]; [| reflexivity].
  cbn. destruct (http_status response =? 200); [| reflexivity].
  cbn. destruct (http_json response) as [webhooks | x]; [| reflexivity].
  cbn. destruct (truthy webhooks); [| reflexivity].
  cbn. destruct (obind (iterate webhooks) _) as [lines | x]; reflexivity.
Qed.

Lemma delete_webhook_cases (webhook_id : pystr) :
  delete_webhook api session ctx webhook_id
    = wtry (delete_body api session ctx webhook_id) (fun e => say ctx (error_reply e)).
Proof.
  unfold delete_webhook, delete_body, call, say, delete_call. f_equal.
  destruct (perform session _) as [response | x]; [| reflexivity].
  cbn. destruct (http_status response =? 200); reflexivity.
Qed.

Lemma test_channel_cases :
  test_channel cfg client ctx
    = wtry (test_body cfg client ctx) (fun e => say ctx (error_reply e)).
Proof.
  unfold test_channel, test_body, say. f_equal.
  destruct (get_text_channel client _) as [channel |]; [| reflexivity].
  cbn. destruct (send_text channel test_message) as [[] | x]; [| reflexivity].
  cbn. destruct (channel_name channel) as [name | x]; reflexivity.
Qed.


Lemma setup_body_replied (board_id : pystr) :
  replied_once ctx (setup_body api session ctx board_id).
Proof.
  unfold replied_once, setup_body.
  destruct (perform session _) as [response | x]; [| right; cbn; eauto].
  destruct (http_status response =? 200); [| left; cbn; eauto].
  destruct (http_json response) as [result | x]; [| right; cbn; eauto].
  destruct (Py.getitem result _) as [id | x]; [left | right]; cbn; eauto.
Qed.

Lemma list_body_replied : replied_once ctx (list_body api session ctx).
Proof.
  unfold replied_once, list_body.
  destruct (perform session _) as [response | x]; [| right; cbn; eauto].
  destruct (http_status response =? 200); [| left; cbn; eauto].
  destruct (http_json response) as [webhooks | x]; [| right; cbn; eauto].
  destruct (truthy webhooks); [| left; cbn; eauto].
  destruct (obind (iterate webhooks) _) as [lines | x]; [left | right]; cbn; eauto.
Qed.

Lemma delete_body_replied (webhook_id : pystr) :
  replied_once ctx (delete_body api session ctx webhook_id).
Proof.
  unfold replied_once, delete_body.
  destruct (perform session _) as [response | x]; [left | right]; cbn; eauto.
Qed.

Lemma test_body_replied : replied_once ctx (test_body cfg client ctx).
Proof.
  unfold replied_once, test_body.
  destruct (get_text_channel client _) as [channel |]; [| left; cbn; eauto].
  destruct (send_text channel test_message) as [[] | x]; [| right; cbn; eauto].
  destruct (channel_name channel) as [name | x]; [left | right]; cbn; eauto.
Qed.

Lemma guarded_one_reply (body : W cmd_event unit) :
  replied_once ctx body ->
  one_reply ctx (wtry body (fun e => say ctx (error_reply e))).
Proof.
  intros H. destruct (guarded_run ctx body H) as [H1 | [H2 | (x & Hr & _ & _ & Hs)]];
    [left; exact H1 | right; left; exact H2 | right; right; eauto].
Qed.

(** X23.  Each of the four commands keeps to one reply: its run replies
    once and returns; or its reply raised and the [except] clause sends the
    error reply for it; or the body raised before replying and the error
    reply is the only one.  A command raises only when its error reply
    does, and it never ends without having replied. *)
Theorem X23_commands_reply_once (board_id webhook_id : pystr) :
  one_reply ctx (setup_webhook api session ctx board_id) /\
  one_reply ctx (list_webhooks api session ctx) /\
  one_reply ctx (delete_webhook api session ctx webhook_id) /\
  one_reply ctx (test_channel cfg client ctx).
Proof.
  rewrite setup_webhook_cases, list_webhooks_cases, delete_webhook_cases,
    test_channel_cases.
  repeat split; apply guarded_one_reply.
  - apply setup_body_replied.
  - apply list_body_replied.
  - apply delete_body_replied.
  - apply test_body_replied.
Qed.


Lemma guarded_events (body : W cmd_event unit) :
  fst (wtry body (fun e => say ctx (error_reply e)))
    = fst body ++ match snd body with
                  | Ok _ => []
                  | Raise x => [CmdReply (error_reply x)]
                  end.
Proof.
  destruct body as [tr [[] | x]]; cbn; [now rewrite app_nil_r | reflexivity].
Qed.

Ltac reply_clash H :=
  cbv [created_reply failed_reply error_reply deleted_reply sent_reply
       no_webhooks_reply listing check_mark cross clipboard] in H;
  discriminate H.

(** No event of the list [H] speaks of is the one looked for. *)
Ltac in_absurd H :=
  cbn in H;
  repeat (let H' := fresh in
          destruct H as [H' | H];
          [solve [discriminate H' | injection H' as H'; reply_clash H'] |]);
  contradiction.

(** X18.  [setup_webhook] makes one HTTP call, the POST of the webhook,
    whatever the configuration holds: the callback it registers is the
    public address followed by "/webhook", and "None/webhook" when the
    address is not set.  The body of the response is read only under status
    200, and the reply "Webhook created successfully" is sent only when that
    body decoded to an object with an [id], which it shows. *)
Theorem X18_setup_webhook (board_id : pystr) :
  let c := setup_call api board_id in
  let tr := fst (setup_webhook api session ctx board_id) in
  calls tr = [c] /\
  (forall t, In (lit "callbackURL", FString t) (entries c) ->
     render t = Some (match WEBHOOK_URL api with
                      | Some address => address ++ lit "/webhook"
                      | None => lit "None/webhook"
                      end)) /\
  (In CmdJson tr ->
     exists response, perform session c = Ok response /\ http_status response = 200) /\
  (forall id, In (CmdReply (created_reply id)) tr ->
     exists response result,
       perform session c = Ok response /\ http_status response = 200 /\
       http_json response = Ok result /\ Py.getitem result (lit "id") = Ok id).
Proof.
  cbn zeta. rewrite setup_webhook_cases, guarded_events. unfold setup_body.
  split; [| split; [| split]].
  - rewrite calls_app.
    destruct (perform session _) as [response | x]; [| reflexivity].
    destruct (http_status response =? 200).
    + destruct (http_json response) as [result | x]; [| reflexivity].
      destruct (Py.getitem result _) as [id | x]; [| reflexivity].
      cbn. now destruct (ctx_send ctx _).
    + cbn. now destruct (ctx_send ctx _).
  - intros t Hin. cbn in Hin.
    destruct Hin as [H | [H | [H | [H | [H | []]]]]]; try discriminate H.
    injection H as <-. destruct (WEBHOOK_URL api) as [address |]; cbn.
    + now rewrite app_nil_r.
    + reflexivity.
  - destruct (perform session _) as [response | x]; [| intros Hin; in_absurd Hin].
    destruct (http_status response =? 200) eqn:Hst.
    + intros _. apply Z.eqb_eq in Hst. eauto.
    + intros Hin. cbn [fst snd] in Hin. destruct (ctx_send ctx _); in_absurd Hin.
  - intros id.
    destruct (perform session _) as [response | x]; [| intros Hin; in_absurd Hin].
    destruct (http_status response =? 200) eqn:Hst.
    + apply Z.eqb_eq in Hst.
      destruct (http_json response) as [result | x] eqn:Hj;
        [| intros Hin; in_absurd Hin].
      destruct (Py.getitem result _) as [id' | x] eqn:Hid;
        [| intros Hin; in_absurd Hin].
      cbn [fst snd]. intros Hin. apply in_app_or in Hin as [Hin | Hin].
      * destruct Hin as [H | [H | [H | []]]]; try discriminate.
        cbv [created_reply] in H. injection H as <-.
        exists response, result. auto.
      * destruct (ctx_send ctx _); in_absurd Hin.
    + intros Hin. cbn [fst snd] in Hin. destruct (ctx_send ctx _); in_absurd Hin.
Qed.

Lemma comprehension_lines (items : list pyval) (lines : list (list rpart)) :
  Forall2 line_of items lines -> comprehension webhook_line items = Ok lines.
Proof.
  induction 1 as [| w l items lines (d & id & model & -> & Hi & Hm & ->) _ IH];
    [reflexivity |].
  cbn [comprehension]. unfold webhook_line at 1. cbn [Py.getitem].
  rewrite Hi, Hm. cbn [obind]. now rewrite IH.
Qed.

Lemma webhook_line_raises (w : pyval) (x : exn) :
  webhook_line w = Raise x -> x = TypeError \/ x = KeyError.
Proof.
  unfold webhook_line. destruct w; cbn [Py.getitem obind];
    try (intros [= <-]; auto).
  destruct (d !! lit "id"); cbn [obind]; [| intros [= <-]; auto].
  destruct (d !! lit "idModel"); cbn [obind]; [discriminate | intros [= <-]; auto].
Qed.

Lemma webhook_line_malformed (w : pyval) :
  malformed_webhook w -> exists x, webhook_line w = Raise x.
Proof.
  unfold webhook_line. destruct w; cbn [Py.getitem obind malformed_webhook]; eauto.
  intros [-> | Hm]; [eauto |]. destruct (d !! lit "id"); cbn [obind]; [| eauto].
  rewrite Hm. eauto.
Qed.

Lemma comprehension_malformed (items : list pyval) :
  Exists malformed_webhook items ->
  exists x, (x = TypeError \/ x = KeyError) /\
            comprehension webhook_line items = Raise x.
Proof.
  induction 1 as [w items Hw | w items _ (x & Hx & IH)]; cbn [comprehension].
  - destruct (webhook_line_malformed w Hw) as (x & Hr). rewrite Hr.
    exists x. split; [now apply webhook_line_raises with (w := w) | reflexivity].
  - destruct (webhook_line w) as [l | y] eqn:Hr; cbn [obind].
    + rewrite IH. eauto.
    + exists y. split; [now apply webhook_line_raises with (w := w) | reflexivity].
Qed.

Lemma iterate_non_list (webhooks : pyval) :
  truthy webhooks = true ->
  (forall items, webhooks <> PList items) ->
  (let? items := iterate webhooks in comprehension webhook_line items)
    = Raise TypeError.
Proof.
  intros Ht Hn. destruct webhooks; cbn [iterate obind]; try reflexivity.
  - destruct s as [| c s]; [discriminate Ht | reflexivity].
  - exfalso. now apply (Hn items).
  - cbn [truthy] in Ht. apply negb_true_iff, bool_decide_eq_false in Ht.
    destruct (map_to_list d) as [| [k v] l] eqn:Hl; [| reflexivity].
    apply map_to_list_empty_iff in Hl. subst d. now rewrite map_size_empty in Ht.
Qed.

(** X19.  [list_webhooks], when the call answers 200 with a non-empty JSON
    list of objects that each have an [id] and an [idModel]: the reply is
    the listing, between code fences, of one line "ID: ..., Board: ..." for
    each webhook, in the order of the list, the lines joined by a newline;
    if that reply raises, the error reply follows. *)
Theorem X19_list_webhooks_listing
        (response : HttpResponse) (items : list pyval) (lines : list (list rpart)) :
  perform session (list_call api) = Ok response ->
  http_status response = 200 ->
  http_json response = Ok (PList items) ->
  items <> [] ->
  Forall2 line_of items lines ->
  let r := listing (join [RLit [10%N]] lines) in
  fst (list_webhooks api session ctx)
    = [CmdCall (list_call api); CmdJson; CmdReply r] ++ after_reply ctx r /\
  length lines = length items.
Proof.
  intros Hp Hst Hj Hne Hl. cbn zeta. split.
  - rewrite list_webhooks_cases, guarded_events. unfold list_body.
    rewrite Hp, Hst, Hj. cbn [Z.eqb Pos.eqb truthy].
    rewrite bool_decide_eq_false_2 by assumption. cbn [negb iterate obind].
    rewrite (comprehension_lines _ _ Hl). reflexivity.
  - symmetry. eapply Forall2_length. exact Hl.
Qed.

(** X20.  [list_webhooks] at its edges, under status 200.  A JSON value
    that is false in Python (an empty list, a null, zero, an empty string or
    object) gives the reply "No webhooks found."; a true value that is no
    list (an object, a string, a number) and a list with an element that is
    no object or lacks [id] or [idModel] give the error reply alone, of a
    [TypeError] or a [KeyError]: no partial listing is sent. *)
Theorem X20_list_webhooks_edges (response : HttpResponse) (webhooks : pyval) :
  perform session (list_call api) = Ok response ->
  http_status response = 200 ->
  http_json response = Ok webhooks ->
  let tr := fst (list_webhooks api session ctx) in
  let head := [CmdCall (list_call api); CmdJson] in
  (truthy webhooks = false ->
     tr = head ++ [CmdReply no_webhooks_reply] ++ after_reply ctx no_webhooks_reply) /\
  (truthy webhooks = true -> (forall items, webhooks <> PList items) ->
     tr = head ++ [CmdReply (error_reply TypeError)]) /\
  (forall items, webhooks = PList items -> Exists malformed_webhook items ->
     exists x, (x = TypeError \/ x = KeyError) /\
               tr = head ++ [CmdReply (error_reply x)]).
Proof.
  intros Hp Hst Hj. cbn zeta.
  rewrite list_webhooks_cases, guarded_events. unfold list_body.
  rewrite Hp, Hst, Hj. cbn [Z.eqb Pos.eqb]. split; [| split].
  - intros ->. reflexivity.
  - intros Ht Hn. rewrite Ht, (iterate_non_list _ Ht Hn). reflexivity.
  - intros items -> Hex.
    destruct (comprehension_malformed items Hex) as (x & Hx & Hc).
    exists x. split; [exact Hx |].
    destruct items as [| w items]; [inversion Hex |].
    cbn [truthy iterate obind]. rewrite bool_decide_eq_false_2 by discriminate.
    cbn [negb]. rewrite Hc. reflexivity.
Qed.

(** X21.  [delete_webhook] makes one HTTP call, the DELETE of the address
    that ends with the identifier as it was typed, and never reads the body
    of the response; it replies "Webhook ... deleted successfully!"
    exactly when that call answered with status 200. *)
Theorem X21_delete_webhook (webhook_id : pystr) :
  let c := delete_call api webhook_id in
  let tr := fst (delete_webhook api session ctx webhook_id) in
  calls tr = [c] /\
  render (url c) = Some (lit "https://api.trello.com/1/webhooks/" ++ webhook_id) /\
  ~ In CmdJson tr /\
  (In (CmdReply (deleted_reply webhook_id)) tr <->
   exists response, perform session c = Ok response /\ http_status response = 200).
Proof.
  cbn zeta. rewrite delete_webhook_cases, guarded_events. unfold delete_body.
  split; [| split; [| split]].
  - rewrite calls_app.
    destruct (perform session _) as [response | x]; [| reflexivity].
    cbn. now destruct (ctx_send ctx _).
  - cbn. now rewrite app_nil_r.
  - destruct (perform session _) as [response | x]; cbn [fst snd]; intros Hin.
    + destruct (ctx_send ctx _); in_absurd Hin.
    + in_absurd Hin.
  - destruct (perform session _) as [response | x]; cbn [fst snd].
    2:{ split; [intros Hin; in_absurd Hin | intros (r & [=] & _)]. }
    destruct (http_status response =? 200) eqn:Hst.
    + apply Z.eqb_eq in Hst. split; [eauto |]. intros _. cbn. auto.
    + split.
      * intros Hin. destruct (ctx_send ctx _); in_absurd Hin.
      * intros (r & [= <-] & Hr). apply Z.eqb_neq in Hst. contradiction.
Qed.

(** X22.  [test_channel]: when no channel is found nothing is sent to a
    channel and the reply says the channel was not found; when the test
    message raises, the error reply is the only reply; and the reply "Test
    message sent to ..." is sent only after the test message went out to
    the channel found, whose name it shows. *)
Theorem X22_test_channel :
  let id := DISCORD_CHANNEL_ID cfg in
  let tr := fst (test_channel cfg client ctx) in
  (get_text_channel client id = None ->
     exists r, tr = [CmdGetChannel id; CmdReply r] ++ after_reply ctx r /\
               r = [RLit (cross :: lit " Channel with ID "); RFmt (PInt id);
                    RLit (lit " not found")]) /\
  (forall channel x,
     get_text_channel client id = Some channel ->
     send_text channel test_message = Raise x ->
     tr = [CmdGetChannel id; CmdChannelSend test_message;
           CmdReply (error_reply x)]) /\
  (forall name, In (CmdReply (sent_reply name)) tr ->
     exists channel,
       get_text_channel client id = Some channel /\
       send_text channel test_message = Ok tt /\
       channel_name channel = Ok name).
Proof.
  cbn zeta. rewrite test_channel_cases, guarded_events. unfold test_body.
  split; [| split].
  - intros ->. eexists. split; reflexivity.
  - intros channel x -> ->. reflexivity.
  - intros name.
    destruct (get_text_channel client _) as [channel |]; cbn [fst snd].
    2:{ intros Hin. destruct (ctx_send ctx _); in_absurd Hin. }
    destruct (send_text channel test_message) as [[] | x] eqn:Hs;
      [| intros Hin; in_absurd Hin].
    destruct (channel_name channel) as [name' | x] eqn:Hn;
      [| intros Hin; in_absurd Hin].
    cbn [fst snd]. intros Hin. apply in_app_or in Hin as [Hin | Hin].
    + destruct Hin as [H | [H | [H | []]]]; try discriminate.
      cbv [sent_reply] in H. injection H as <-. eauto.
    + destruct (ctx_send ctx _); in_absurd Hin.
Qed.

End CommandsMore.

(* ================================================================== *)
(** ** On sample data *)

Lemma X1_witness :
  exists (a m : gmap (list N) pyval) (d : pystr) (ts : datetime),
    full_createCard = PDict a /\
    default Py.empty_dict (a !! lit "memberCreator") = PDict m /\
    a !! lit "date" = Some (PStr d) /\ d <> [] /\
    IsoFormat.parse (replace_char 90%N (lit "+00:00") d) = Some ts /\
    match utcoffset ts with
    | Some _ => sample_instant = ts
    | None => IsoFormat.astimezone_utc (clock ts) = Ok sample_instant
    end.
Proof.
  apply (@X1_embed_requires reference_runtime full_createCard full_createCard_embed).
  vm_compute. reflexivity.
Defined.

Lemma X2_witness :
  color full_createCard_embed = 0x00ff00 /\
  length (fields full_createCard_embed) = 2%nat.
Proof.
  destruct (@X2_fields_shape reference_runtime full_createCard (str "createCard")
              full_createCard_embed) as (Hc & _ & Hn);
    [reflexivity | vm_compute; reflexivity |].
  split; [exact Hc | exact Hn].
Defined.

Lemma X3_witness :
  exists e : Embed,
    @create_embed reference_runtime moved_and_renamed = Ok e /\
    map name (fields e)
      = [lit "Name Changed"; lit "Position Changed"; lit "Updated by"].
Proof.
  eexists.
  destruct (@X3_updateCard_embed reference_runtime moved_and_renamed
              (PDict {[ lit "name" := str "New" ]})
              (PDict {[ lit "fullName" := str "Ann" ]})
              (str "New") (str "New") (str "Ann")
              {[ lit "name" := str "Old"; lit "pos" := PInt 3 ]} _
              eq_refl eq_refl eq_refl eq_refl eq_refl eq_refl eq_refl eq_refl)
    as (_ & _ & _ & Hf).
  split; [reflexivity |]. rewrite Hf. vm_compute. reflexivity.
Defined.

Lemma X4_witness :
  exists e : Embed,
    @create_embed reference_runtime deleted_card = Ok e /\
    map name (fields e) = [lit "Deleted by"] /\ color e = 0xff0000.
Proof.
  eexists.
  destruct (@X4_deleteCard_embed reference_runtime deleted_card
              (PDict {[ lit "name" := str "Gone" ]}) (PDict ∅)
              (str "Gone") unknown _
              eq_refl eq_refl eq_refl eq_refl eq_refl eq_refl)
    as (_ & _ & Hc & Hf).
  split; [reflexivity |]. rewrite Hf. split; [reflexivity | exact Hc].
Defined.

Lemma X5_witness :
  let text := PStr (repeat 120%N 1500) in
  let v := PStr (firstn 1000 (repeat 120%N 1500) ++ lit "...") in
  (exists s s', text = PStr s /\ v = PStr s' /\
                (length s' <= 1003)%nat /\
                firstn 1000 s' = firstn 1000 s /\
                ((length s <= 1000)%nat -> s' = s)) \/
  (v = text /\
   ((exists l, text = PList l /\ (length l <= 1000)%nat) \/
    (exists d, text = PDict d /\ (size d <= 1000)%nat))).
Proof.
  apply (X5_comment_value (PStr (repeat 120%N 1500))
           (PStr (firstn 1000 (repeat 120%N 1500) ++ lit "..."))).
  vm_compute. reflexivity.
Defined.

Lemma X6_witness :
  @parse_date reference_runtime (PStr (lit "2024-01-15T10:30:00" ++ [90%N]))
    = @parse_date reference_runtime (PStr (lit "2024-01-15T10:30:00" ++ lit "+00:00")).
Proof.
  apply (proj1 (proj2 (@X6_date_Z_replaced reference_runtime))).
Defined.

Lemma X7_witness :
  @create_embed reference_runtime null_data_createCard = Raise AttributeError.
Proof.
  unfold null_data_createCard.
  apply (@X7_non_object_data reference_runtime _ (str "createCard"));
    [reflexivity | vm_compute; discriminate |].
  left. exists PNone. split; reflexivity.
Defined.

Lemma X8_witness :
  verify_webhook_signature with_secret signed_full = Ok true /\
  verify_webhook_signature with_secret badly_signed_full = Ok false.
Proof.
  split.
  - apply (proj1 (X8_verify_ascii with_secret signed_full (lit "s3cret")
                    (sign full_body) (ascii_bytes "s3cret") full_body
                    eq_refl ltac:(vm_compute; discriminate) eq_refl eq_refl
                    ltac:(vm_compute; reflexivity) eq_refl)).
    reflexivity.
  - apply (proj2 (X8_verify_ascii with_secret badly_signed_full (lit "s3cret")
                    (lit "deadbeef") (ascii_bytes "s3cret") full_body
                    eq_refl ltac:(vm_compute; discriminate) eq_refl eq_refl
                    ltac:(vm_compute; reflexivity) eq_refl)).
    intros H. apply (f_equal (@length N)) in H. vm_compute in H. discriminate H.
Defined.

Lemma X9_witness :
  exists (sig : pystr) (key body : bytes),
    headers_get signed_full (lit "X-Trello-Webhook") = Some sig /\
    encode (lit "s3cret") = Some key /\
    read signed_full = Ok body /\
    sig = SHA1.hmac_hexdigest key body /\
    length sig = 40%nat /\
    forallb is_lower_hex sig = true.
Proof.
  apply (X9_accepts_only_hex_hmac with_secret signed_full (lit "s3cret"));
    [reflexivity | vm_compute; discriminate | vm_compute; reflexivity].
Defined.

Lemma X10_witness :
  verify_webhook_signature surrogate_secret signed_full = Raise UnicodeEncodeError /\
  verify_webhook_signature with_secret oversized_request = Raise (OtherError 413).
Proof.
  split.
  - apply (proj2 (X10_verify_raises surrogate_secret signed_full UnicodeEncodeError)).
    exists [115; 0xDC80]%N, (sign full_body).
    split; [reflexivity |]. split; [discriminate |]. split; [reflexivity |].
    split; [vm_compute; discriminate |]. right.
    split; [exists full_body; reflexivity |]. left. split; reflexivity.
  - apply (proj2 (X10_verify_raises with_secret oversized_request (OtherError 413))).
    exists (lit "s3cret"), (lit "deadbeef").
    split; [reflexivity |]. split; [vm_compute; discriminate |].
    split; [reflexivity |]. split; [vm_compute; discriminate |].
    left. reflexivity.
Defined.

Lemma X11_witness :
  verify_webhook_signature empty_secret badly_signed_full = Ok true /\
  verify_webhook_signature with_secret empty_signed_full = Ok false.
Proof.
  split.
  - apply (proj1 (X11_empty_strings empty_secret badly_signed_full)). reflexivity.
  - apply (proj2 (X11_empty_strings with_secret empty_signed_full) (lit "s3cret"));
      [reflexivity | vm_compute; discriminate | reflexivity].
Defined.


Lemma X14_witness :
  verify_webhook_signature with_secret signed_full = Ok true /\
  exists data action ty channel,
    json signed_full = Ok data /\
    Py.get data (lit "action") Py.empty_dict = Ok action /\
    Py.get action (lit "type") PNone = Ok ty /\
    Py.in_strs ty actionable = true /\
    get_channel bot_ready (DISCORD_CHANNEL_ID with_secret) = Some channel /\
    @create_embed reference_runtime action = Ok full_createCard_embed.
Proof.
  apply (@X14_send_is_earned reference_runtime with_secret bot_ready signed_full
           full_createCard_embed).
  vm_compute. right. right. right. left. reflexivity.
Defined.

Lemma X15_witness :
  @handle_webhook reference_runtime with_secret bot_ready signed_full
    = ([EvDecode; EvGetChannel 42; EvFormat full_createCard;
        EvSend full_createCard_embed],
       Ok (mk_response 200 (lit "OK"))).
Proof.
  apply (@X15_delivery reference_runtime with_secret bot_ready signed_full
           (document full_createCard) full_createCard (str "createCard")
           (mk_channel (fun _ => Ok tt)) full_createCard_embed);
    vm_compute; reflexivity.
Defined.

Lemma X16_witness :
  @handle_webhook reference_runtime no_secret bot_ready array_request
    = ([EvDecode; EvLog (ErrorProcessingEvent AttributeError)],
       Ok (mk_response 200 (lit "OK"))).
Proof.
  apply (@X16_non_object_document reference_runtime no_secret bot_ready
           array_request (PList []));
    [reflexivity | reflexivity | left; reflexivity].
Defined.

Lemma X17_witness :
  @handle_webhook reference_runtime no_secret bot_without_channel unsigned_sparse
    = ([EvDecode; EvGetChannel 42; EvLog (ChannelNotFound 42)],
       Ok (mk_response 200 (lit "OK"))).
Proof.
  apply (@X17_missing_channel reference_runtime no_secret bot_without_channel
           unsigned_sparse (document sparse_createCard) sparse_createCard
           (str "createCard"));
    vm_compute; reflexivity.
Defined.

Lemma X18_witness :
  render [Fmt (env (WEBHOOK_URL api_without_address)); Lit (lit "/webhook")]
    = Some (lit "None/webhook").
Proof.
  apply (proj1 (proj2 (X18_setup_webhook api_without_address
                         (session_answering webhook_1) ctx_ready (lit "board1")))).
  cbn. auto.
Defined.

Lemma X19_witness :
  let r := listing (join [RLit [10%N]]
                      [[RLit (lit "ID: "); RFmt (str "wh1");
                        RLit (lit ", Board: "); RFmt (str "b1")];
                       [RLit (lit "ID: "); RFmt (str "wh2");
                        RLit (lit ", Board: "); RFmt (str "b2")]]) in
  fst (list_webhooks api_without_address
         (session_answering (PList [webhook_1; webhook_2])) ctx_ready)
    = [CmdCall (list_call api_without_address); CmdJson; CmdReply r]
        ++ after_reply ctx_ready r.
Proof.
  apply (X19_list_webhooks_listing api_without_address
           (session_answering (PList [webhook_1; webhook_2])) ctx_ready
           (mk_http_response 200 (Ok (PList [webhook_1; webhook_2])))
           [webhook_1; webhook_2]);
    [reflexivity | reflexivity | reflexivity | discriminate |].
  repeat constructor.
  - exists {[ lit "id" := str "wh1"; lit "idModel" := str "b1" ]}, (str "wh1"), (str "b1").
    repeat split.
  - exists {[ lit "id" := str "wh2"; lit "idModel" := str "b2" ]}, (str "wh2"), (str "b2").
    repeat split.
Defined.

Lemma X20_witness :
  fst (list_webhooks api_without_address (session_answering webhook_1) ctx_ready)
    = [CmdCall (list_call api_without_address); CmdJson;
       CmdReply (error_reply TypeError)].
Proof.
  apply (X20_list_webhooks_edges api_without_address (session_answering webhook_1)
           ctx_ready (mk_http_response 200 (Ok webhook_1)) webhook_1);
    [reflexivity | reflexivity | reflexivity | vm_compute; reflexivity |].
  intros items H. discriminate H.
Defined.

Lemma X21_witness :
  In (CmdReply (deleted_reply (lit "wh1")))
     (fst (delete_webhook api_without_address (session_answering PNone) ctx_ready
             (lit "wh1"))).
Proof.
  apply (proj2 (proj2 (proj2 (X21_delete_webhook api_without_address
                                (session_answering PNone) ctx_ready (lit "wh1"))))).
  exists (mk_http_response 200 (Ok PNone)). split; reflexivity.
Defined.

Lemma X22_witness :
  exists r,
    fst (test_channel no_secret client_without_channel ctx_ready)
      = [CmdGetChannel 42; CmdReply r] ++ after_reply ctx_ready r /\
    r = [RLit (cross :: lit " Channel with ID "); RFmt (PInt 42);
         RLit (lit " not found")].
Proof.
  apply (proj1 (X22_test_channel no_secret client_without_channel ctx_ready)).
  reflexivity.
Defined.
